(** * FFFrameReader: a shallow embedding of the stream cursor

    This development embeds [src/source/FFFRStream.cpp] (the [Stream]
    class: TimeMap conversions, decode pump, ping/pong buffers, peek/pop,
    frame sequences, the two seek algorithms and the probes run by the
    constructor) and [Frame::getAspectRatio] of [src/source/FFFRFrame.cpp].

    int64_t values are modelled as [Z]; the arithmetic of the methods is
    taken exact (the values considered stay inside the int64 range).
    The FFmpeg libraries are external: their entry points are the fields
    of the class [FFmpeg] below, except [av_rescale_q], which is a pure
    function and is written out from libavutil/mathematics.c. *)

From Stdlib Require Import ZArith Lia List Bool.
From Stdlib Require Import PrimFloat Uint63.
Import ListNotations.
Open Scope Z_scope.

(** ** libavutil rationals and rescaling *)

Record AVRational := av_make_q { num : Z; den : Z }.

Definition av_inv_q (q : AVRational) : AVRational := av_make_q (den q) (num q).

Definition INT64_MIN : Z := - 2 ^ 63.
Definition AV_NOPTS_VALUE : Z := INT64_MIN.
Definition AV_TIME_BASE : Z := 1000000.

(** [av_rescale_rnd a b c AV_ROUND_NEAR_INF] as written in libavutil:
    invalid operands give INT64_MIN, a negative [a] is handled by
    symmetry, otherwise [(a * b + c / 2) / c]. *)
Definition av_rescale_near_inf (a b c : Z) : Z :=
  if (c <=? 0) || (b <? 0) then INT64_MIN
  else if a <? 0 then - ((- a * b + c / 2) / c)
  else (a * b + c / 2) / c.

(** [av_rescale_q(a, bq, cq) = av_rescale_rnd(a, bq.num * cq.den,
    cq.num * bq.den, AV_ROUND_NEAR_INF)]. *)
Definition av_rescale_q (a : Z) (bq cq : AVRational) : Z :=
  av_rescale_near_inf a (num bq * den cq) (num cq * den bq).

(** ** Demuxer packets and decoded frames *)

Record AVPacket := mkPacket {
  stream_index : Z;
  pts : Z;
  dts : Z;
}.

(** One result of [av_read_frame]: a packet, or a negative error code.
    The end of the list is [AVERROR_EOF]. *)
Inductive ReadResult :=
| ReadPacket (p : AVPacket)
| ReadError (err : Z).

(** The fields of a decoded [AVFrame] the code reads. *)
Record AVFrame := mkAVFrame {
  best_effort_timestamp : Z;
  width : Z;
  height : Z;
}.

(** [Frame]: the decoder frame (None once released), the derived
    microsecond time stamp and frame number. *)
Record Frame := mkFrame {
  m_frame : option AVFrame;
  m_timeStamp : Z;
  m_frameNum : Z;
}.

Definition getTimeStamp (f : Frame) : Z := m_timeStamp f.
Definition getFrameNumber (f : Frame) : Z := m_frameNum f.

(** FFERRTAG('E','O','F',' ') and AVERROR(EAGAIN) on Linux. *)
Definition AVERROR_EOF : Z := - 541478725.
Definition AVERROR_EAGAIN : Z := - 11.
Definition AVSEEK_FLAG_BACKWARD : Z := 1.
Definition AVSEEK_FLAG_FRAME : Z := 8.

(** Container-level and substream metadata read by the probes. *)
Record AVFormatInfo := mkFormatInfo {
  fmt_duration : Z;          (* m_formatContext->duration, microseconds *)
  st_time_base : AVRational;
  st_r_frame_rate : AVRational;
  st_start_time : Z;
  st_first_dts : Z;
  st_nb_frames : Z;
  st_duration : Z;
  st_display_aspect_ratio : AVRational;
  st_width : Z;
  st_height : Z;
}.

(** ** The TimeMap conversions (Stream::timeToTimeStamp ... timeToFrame) *)

Section TimeMap.
Variable fmt : AVFormatInfo.
Variable m_startTimeStamp : Z.

Definition timeToTimeStamp (time : Z) : Z :=
  m_startTimeStamp + av_rescale_q time (av_make_q 1 AV_TIME_BASE) (st_time_base fmt).

Definition timeStampToTime (timeStamp : Z) : Z :=
  av_rescale_q (timeStamp - m_startTimeStamp) (st_time_base fmt) (av_make_q 1 AV_TIME_BASE).

Definition frameToTimeStamp (frame : Z) : Z :=
  m_startTimeStamp + av_rescale_q frame (av_inv_q (st_r_frame_rate fmt)) (st_time_base fmt).

Definition timeStampToFrame (timeStamp : Z) : Z :=
  av_rescale_q (timeStamp - m_startTimeStamp) (st_r_frame_rate fmt) (av_inv_q (st_time_base fmt)).

Definition frameToTime (frame : Z) : Z :=
  av_rescale_q frame (av_make_q AV_TIME_BASE 1) (st_r_frame_rate fmt).

Definition timeToFrame (time : Z) : Z :=
  av_rescale_q time (av_make_q 1 AV_TIME_BASE) (av_inv_q (st_r_frame_rate fmt)).
End TimeMap.

(** ** The external libraries

    [avcodec_receive_frames] stands for the inner [avcodec_receive_frame]
    loop of [decodeNextBlock]: the frames received, in order, and the first
    negative return code. [avformat_seek_file] and [av_seek_frame] return
    their result and, on success, the packets [av_read_frame] yields from
    the new read position. *)
Class FFmpeg := {
  Codec : Type;
  avcodec_send_packet : Codec -> AVPacket -> Z * Codec;
  avcodec_receive_frames : Codec -> list AVFrame * Z * Codec;
  avcodec_flush_buffers : Codec -> Codec;
  avformat_seek_file : Z -> Z -> Z -> Z -> Z -> Z * list ReadResult;
  av_seek_frame : Z -> Z -> Z -> Z * list ReadResult;
  (* codec->capabilities & AV_CODEC_CAP_DELAY, delay, has_b_frames *)
  codec_cap_delay : Codec -> bool;
  codec_delay : Codec -> Z;
  codec_has_b_frames : Codec -> Z;
}.

(** The value of [make_shared<Frame>()], which [popFrame] stores in a
    released slot (its member initialisers live in FFFRFrame.h). *)
Class FrameDefault := { Frame_default : Frame }.

Section StreamModel.
Context `{FFmpeg} `{FrameDefault}.

(** The [Stream] object: metadata, the probed values, both buffers, the
    read head, the frame-seek latch, the demuxer read position and the
    decoder. *)
Record Stream := mkStream {
  m_format : AVFormatInfo;
  m_index : Z;
  m_bufferLength : Z;
  m_startTimeStamp : Z;
  m_totalFrames : Z;
  m_totalDuration : Z;
  m_bufferPing : list Frame;
  m_bufferPong : list Frame;
  m_bufferPingHead : nat;
  m_frameSeekSupported : bool;
  m_packets : list ReadResult;
  m_codec : Codec;
}.

Definition set_buffers (s : Stream) (ping pong : list Frame) (head : nat) : Stream :=
  mkStream (m_format s) (m_index s) (m_bufferLength s) (m_startTimeStamp s)
    (m_totalFrames s) (m_totalDuration s) ping pong head
    (m_frameSeekSupported s) (m_packets s) (m_codec s).

Definition set_demux (s : Stream) (pkts : list ReadResult) (codec : Codec) : Stream :=
  mkStream (m_format s) (m_index s) (m_bufferLength s) (m_startTimeStamp s)
    (m_totalFrames s) (m_totalDuration s) (m_bufferPing s) (m_bufferPong s)
    (m_bufferPingHead s) (m_frameSeekSupported s) pkts codec.

Definition set_frameSeekSupported (s : Stream) (b : bool) : Stream :=
  mkStream (m_format s) (m_index s) (m_bufferLength s) (m_startTimeStamp s)
    (m_totalFrames s) (m_totalDuration s) (m_bufferPing s) (m_bufferPong s)
    (m_bufferPingHead s) b (m_packets s) (m_codec s).

Definition Stream_timeToTimeStamp s := timeToTimeStamp (m_format s) (m_startTimeStamp s).
Definition Stream_timeStampToTime s := timeStampToTime (m_format s) (m_startTimeStamp s).
Definition Stream_frameToTimeStamp s := frameToTimeStamp (m_format s) (m_startTimeStamp s).
Definition Stream_timeStampToFrame s := timeStampToFrame (m_format s) (m_startTimeStamp s).
Definition Stream_frameToTime s := frameToTime (m_format s).
Definition getFrameTime s := Stream_frameToTime s 1.

(** ** Stream::decodeNextBlock

    The [while (true)] loop over [av_read_frame]; the result is the return
    value, the pong buffer, the remaining packets and the decoder.
    (A failing [av_frame_alloc] is not modelled.) *)
Fixpoint decode_loop (s : Stream) (pkts : list ReadResult) (codec : Codec)
    (pong : list Frame) : bool * list Frame * list ReadResult * Codec :=
  match pkts with
  | [] => (true, pong, [], codec)
  | ReadError ret :: rest =>
      if ret =? AVERROR_EOF then (true, pong, rest, codec) else (false, pong, rest, codec)
  | ReadPacket packet :: rest =>
      if m_index s =? stream_index packet then
        let '(ret, codec1) := avcodec_send_packet codec packet in
        if ret <? 0 then (false, pong, rest, codec1) else
        let '(frames, ret2, codec2) := avcodec_receive_frames codec1 in
        let pong2 := pong ++ map (fun frame =>
              mkFrame (Some frame)
                (Stream_timeStampToTime s (best_effort_timestamp frame))
                (Stream_timeStampToFrame s (best_effort_timestamp frame))) frames in
        if (ret2 =? AVERROR_EAGAIN) || (ret2 =? AVERROR_EOF) then
          if Z.of_nat (length pong2) >=? m_bufferLength s
          then (true, pong2, rest, codec2)
          else decode_loop s rest codec2 pong2
        else (false, pong2, rest, codec2)
      else decode_loop s rest codec pong
  end.

Definition decodeNextBlock (s : Stream) : bool * Stream :=
  let '(ok, pong, pkts, codec) := decode_loop s (m_packets s) (m_codec s) [] in
  (ok, set_buffers (set_demux s pkts codec) (m_bufferPing s) pong (m_bufferPingHead s)).

(** ** Stream::peekNextFrame, Stream::popFrame, Stream::getNextFrame

    [variant<bool, shared_ptr<Frame>>] is [bool + Frame]. *)
Definition peekNextFrame (s : Stream) : (bool + Frame) * Stream :=
  if Nat.eqb (m_bufferPingHead s) (length (m_bufferPing s)) then
    let '(ok, s1) := decodeNextBlock s in
    if negb ok then (inl false, s1) else
    (* swap(m_bufferPing, m_bufferPong); m_bufferPingHead = 0;
       m_bufferPong.resize(0) *)
    let s2 := set_buffers s1 (m_bufferPong s1) [] 0 in
    if Nat.eqb (length (m_bufferPing s2)) 0 then (inl false, s2)
    else (inr (nth (m_bufferPingHead s2) (m_bufferPing s2) Frame_default), s2)
  else (inr (nth (m_bufferPingHead s) (m_bufferPing s) Frame_default), s).

(** [m_bufferPing[m_bufferPingHead++] = make_shared<Frame>()] *)
Fixpoint replace_nth (n : nat) (l : list Frame) (x : Frame) : list Frame :=
  match l, n with
  | [], _ => []
  | _ :: t, O => x :: t
  | h :: t, S m => h :: replace_nth m t x
  end.

Definition popFrame (s : Stream) : Stream :=
  if (length (m_bufferPing s) <=? m_bufferPingHead s)%nat then s
  else set_buffers s (replace_nth (m_bufferPingHead s) (m_bufferPing s) Frame_default)
         (m_bufferPong s) (S (m_bufferPingHead s)).

Definition getNextFrame (s : Stream) : (bool + Frame) * Stream :=
  let '(ret, s1) := peekNextFrame s in
  match ret with
  | inl _ => (inl false, s1)
  | inr f => (inr f, popFrame s1)
  end.

(** ** Stream::getNextFrameSequence

    [skip_frames k] is the inner [for (j = start; j < i; j++)] loop:
    a peek that must return a frame, then a pop. *)
Fixpoint skip_frames (k : nat) (s : Stream) : bool * Stream :=
  match k with
  | O => (true, s)
  | S k' =>
      match peekNextFrame s with
      | (inl _, s1) => (false, s1)
      | (inr _, s1) => skip_frames k' (popFrame s1)
      end
  end.

Fixpoint sequence_loop (frameSequence : list Z) (start : Z) (ret : list Frame)
    (s : Stream) : (bool + list Frame) * Stream :=
  match frameSequence with
  | [] => (inr ret, s)
  | i :: rest =>
      if i <? start then (inl false, s) else
      let '(ok, s1) := skip_frames (Z.to_nat (i - start)) s in
      if negb ok then (inl false, s1) else
      match getNextFrame s1 with
      | (inl _, s2) => (inl false, s2)
      | (inr frame, s2) => sequence_loop rest (i + 1) (ret ++ [frame]) s2
      end
  end.

Definition getNextFrameSequence (frameSequence : list Z) (s : Stream)
    : (bool + list Frame) * Stream :=
  sequence_loop frameSequence 0 [] s.

(** ** Stream::seekInternal and Stream::seekFrameInternal

    The [while (true)] loops and the recursive calls consume [fuel];
    [None] stands for running out of it. *)

Definition back (s : Stream) : Frame := last (m_bufferPing s) Frame_default.
Definition head_frame (s : Stream) : Frame :=
  nth (m_bufferPingHead s) (m_bufferPing s) Frame_default.

(** Clear [m_bufferPing] and [m_bufferPingHead]. *)
Definition clear_ping (s : Stream) : Stream := set_buffers s [] (m_bufferPong s) 0.

(** The "Dump all frames before requested one" loop of [seekInternal]. *)
Fixpoint walk_time (fuel : nat) (timeStamp : Z) (s : Stream) : option (bool * Stream) :=
  match fuel with
  | O => None
  | S fuel' =>
      match peekNextFrame s with
      | (inl _, s1) => Some (false, s1)
      | (inr frame, s1) =>
          if timeStamp <=? getTimeStamp frame then Some (true, s1)
          else if (timeStamp >? getTimeStamp frame)
                  && (timeStamp <? getTimeStamp frame + getFrameTime s1)
          then Some (true, s1)
          else walk_time fuel' timeStamp (popFrame s1)
      end
  end.

Fixpoint seekInternal (fuel : nat) (timeStamp : Z) (recursed : bool) (s : Stream)
    : option (bool * Stream) :=
  match fuel with
  | O => None
  | S fuel' =>
      let demux_seek := fun s =>
        if recursed then Some (false, s) else
        let s1 := set_demux s (m_packets s) (avcodec_flush_buffers (m_codec s)) in
        let localTimeStamp := Stream_timeToTimeStamp s1 timeStamp + m_startTimeStamp s1 in
        let '(err, pkts) :=
          avformat_seek_file (m_index s1) INT64_MIN localTimeStamp localTimeStamp 0 in
        if err <? 0 then Some (false, s1) else
        match peekNextFrame (clear_ping (set_demux s1 pkts (m_codec s1))) with
        | (inl _, s2) => Some (false, s2)
        | (inr _, s2) => seekInternal fuel' timeStamp true s2
        end in
      if (0 <? length (m_bufferPing s))%nat then
        if (m_bufferPingHead s <? length (m_bufferPing s))%nat
           && (timeStamp >=? getTimeStamp (head_frame s))
           && (timeStamp <=? getTimeStamp (back s))
        then walk_time fuel' timeStamp s
        else if timeStamp >? getTimeStamp (back s) then
          let timeRange := Stream_frameToTime s 25 in
          if timeStamp <=? getTimeStamp (back s) + timeRange then
            match peekNextFrame (clear_ping s) with
            | (inl _, s1) => Some (false, s1)
            | (inr _, s1) => seekInternal fuel' timeStamp true s1
            end
          else demux_seek s
        else demux_seek s
      else demux_seek s
  end.

Definition seek (fuel : nat) (timeStamp : Z) (s : Stream) : option (bool * Stream) :=
  seekInternal fuel timeStamp false s.

(** The peek/pop loop shared by the in-buffer and the forward branches of
    [seekFrameInternal]. *)
Fixpoint walk_frame (fuel : nat) (frame : Z) (s : Stream) : option (bool * Stream) :=
  match fuel with
  | O => None
  | S fuel' =>
      match peekNextFrame s with
      | (inl _, s1) => Some (false, s1)
      | (inr f, s1) =>
          if frame <=? getFrameNumber f then Some (true, s1)
          else walk_frame fuel' frame (popFrame s1)
      end
  end.

Fixpoint seekFrameInternal (fuel : nat) (frame : Z) (recursed : bool) (s : Stream)
    : option (bool * Stream) :=
  match fuel with
  | O => None
  | S fuel' =>
      let demux_seek := fun s =>
        if recursed || negb (m_frameSeekSupported s) then
          if m_frameSeekSupported s then
            seek fuel' (Stream_frameToTime s frame) (set_frameSeekSupported s false)
          else if recursed then Some (false, s)
          else seek fuel' (Stream_frameToTime s frame) s
        else
        let s1 := set_demux s (m_packets s) (avcodec_flush_buffers (m_codec s)) in
        let frameInternal := frame + Stream_timeStampToFrame s1 (m_startTimeStamp s1) in
        let '(err, pkts) :=
          avformat_seek_file (m_index s1) INT64_MIN frameInternal frameInternal AVSEEK_FLAG_FRAME in
        if err <? 0 then
          seek fuel' (Stream_frameToTime s1 frame) (set_frameSeekSupported s1 false)
        else
        match peekNextFrame (clear_ping (set_demux s1 pkts (m_codec s1))) with
        | (inl _, s2) => Some (false, s2)
        | (inr _, s2) => seekFrameInternal fuel' frame true s2
        end in
      if (0 <? length (m_bufferPing s))%nat then
        if (m_bufferPingHead s <? length (m_bufferPing s))%nat
           && (frame >=? getFrameNumber (head_frame s))
           && (frame <=? getFrameNumber (back s))
        then walk_frame fuel' frame s
        else if frame >? getFrameNumber (back s) then
          (* const auto frameRange = m_bufferLength * 2; in uint32_t *)
          let frameRange := (m_bufferLength s * 2) mod 2 ^ 32 in
          if frame <=? getFrameNumber (back s) + frameRange
          then walk_frame fuel' frame s
          else demux_seek s
        else demux_seek s
      else demux_seek s
  end.

Definition seekFrame (fuel : nat) (frame : Z) (s : Stream) : option (bool * Stream) :=
  seekFrameInternal fuel frame false s.

(** ** The probes run by the constructor *)

Definition getCodecDelay (s : Stream) : Z :=
  Z.max ((if codec_cap_delay (m_codec s) then codec_delay (m_codec s) else 0)
         + codec_has_b_frames (m_codec s)) 1.

(** The packet loop of [getStreamStartTime]: [inl rest] when
    [av_read_frame] fails, [inr (startTimeStamp, rest)] when [maxPackets]
    packets of the stream have been read. *)
Fixpoint start_time_loop (index remaining : Z) (pkts : list ReadResult)
    (startTimeStamp : Z) : list ReadResult + (Z * list ReadResult) :=
  if remaining <=? 0 then inr (startTimeStamp, pkts) else
  match pkts with
  | [] => inl []
  | ReadError _ :: rest => inl rest
  | ReadPacket packet :: rest =>
      if stream_index packet =? index then
        let pts := if pts packet =? AV_NOPTS_VALUE then dts packet else pts packet in
        let startTimeStamp' :=
          if negb (pts =? AV_NOPTS_VALUE)
             && ((pts <? startTimeStamp) || (startTimeStamp =? AV_NOPTS_VALUE))
          then pts else startTimeStamp in
        start_time_loop index (remaining - 1) rest startTimeStamp'
      else start_time_loop index remaining rest startTimeStamp
  end.

Definition getStreamStartTime (s : Stream) : Z * Stream :=
  let stream := m_format s in
  if negb (st_start_time stream =? AV_NOPTS_VALUE) then (st_start_time stream, s) else
  let s1 := set_demux s (m_packets s) (avcodec_flush_buffers (m_codec s)) in
  let startDts := if negb (st_first_dts stream =? AV_NOPTS_VALUE)
                  then Z.min 0 (st_first_dts stream) else 0 in
  let '(err, pkts) := av_seek_frame (m_index s1) startDts AVSEEK_FLAG_BACKWARD in
  if err <? 0 then (0, s1) else
  match start_time_loop (m_index s1) (getCodecDelay s1) pkts AV_NOPTS_VALUE with
  | inl rest => (0, set_demux s1 rest (m_codec s1))
  | inr (startTimeStamp, rest) =>
      let '(err2, pkts2) := av_seek_frame (m_index s1) startDts AVSEEK_FLAG_BACKWARD in
      let s2 := set_demux s1 (if err2 <? 0 then rest else pkts2) (m_codec s1) in
      (if negb (startTimeStamp =? AV_NOPTS_VALUE) then startTimeStamp else 0, s2)
  end.

(** The read-to-end loop shared by [getStreamFrames] and
    [getStreamDuration]: [found = packet.dts; if (found != AV_NOPTS_VALUE)
    found = packet.pts;] and the maximum is kept. *)
Fixpoint scan_loop (index : Z) (pkts : list ReadResult) (foundTimeStamp : Z) : Z :=
  match pkts with
  | [] => foundTimeStamp
  | ReadError _ :: _ => foundTimeStamp
  | ReadPacket packet :: rest =>
      if stream_index packet =? index then
        let found := dts packet in
        let found := if negb (found =? AV_NOPTS_VALUE) then pts packet else found in
        scan_loop index rest (if found >? foundTimeStamp then found else foundTimeStamp)
      else scan_loop index rest foundTimeStamp
  end.

(** Seek to the last key frame, scan, seek back to the start: the maximum
    found (None when the first seek fails) and the new stream state. *)
Definition scan_last_timestamp (s : Stream) : option Z * Stream :=
  let s1 := set_demux s (m_packets s) (avcodec_flush_buffers (m_codec s)) in
  let '(err, pkts) :=
    av_seek_frame (m_index s1) (Stream_frameToTimeStamp s1 (2 ^ 29)) AVSEEK_FLAG_BACKWARD in
  if err <? 0 then (None, s1) else
  let foundTimeStamp := scan_loop (m_index s1) pkts (m_startTimeStamp s1) in
  let '(err2, pkts2) := av_seek_frame (m_index s1) 0 0 in
  (Some foundTimeStamp, set_demux s1 (if err2 <? 0 then [] else pkts2) (m_codec s1)).

Definition getStreamFrames (s : Stream) : Z * Stream :=
  let stream := m_format s in
  let frames := av_rescale_q (fmt_duration stream) (st_r_frame_rate stream)
                  (av_inv_q (av_make_q 1 AV_TIME_BASE)) in
  if (fmt_duration stream >? 0) && (Z.abs (frames - st_nb_frames stream) >? 1) then
    (frames - Stream_timeStampToFrame s (m_startTimeStamp s * 2), s)
  else if st_nb_frames stream >? 0 then
    (st_nb_frames stream - Stream_timeStampToFrame s (m_startTimeStamp s * 2), s)
  else if st_duration stream >? 0 then
    (Stream_timeStampToFrame s (st_duration stream), s)
  else
    match scan_last_timestamp s with
    | (None, s1) => (0, s1)
    | (Some foundTimeStamp, s1) => (1 + Stream_timeStampToFrame s1 foundTimeStamp, s1)
    end.

Definition getStreamDuration (s : Stream) : Z * Stream :=
  let stream := m_format s in
  if fmt_duration stream >? 0 then
    (fmt_duration stream - Stream_timeStampToTime s (m_startTimeStamp s * 2), s)
  else if st_duration stream >? 0 then
    (Stream_timeStampToTime s (st_duration stream), s)
  else
    match scan_last_timestamp s with
    | (None, s1) => (0, s1)
    | (Some foundTimeStamp, s1) =>
        (Stream_timeStampToTime s1 foundTimeStamp + Stream_frameToTime s1 1, s1)
    end.

(** Modelled from the spec: the member initialisers of FFFRStream.h
    (not available): both buffers empty, [m_bufferPingHead = 0] and the
    frame-seek latch starting true ("starts true"). The constructor body
    of FFFRStream.cpp then runs the three probes. *)
Definition Stream_create (format : AVFormatInfo) (streamID : Z) (codec : Codec)
    (bufferLength : Z) (pkts : list ReadResult) : Stream :=
  let s0 := mkStream format streamID bufferLength 0 0 0 [] [] 0 true pkts codec in
  let '(start, s1) := getStreamStartTime s0 in
  let s1 := mkStream format streamID bufferLength start 0 0 (m_bufferPing s1)
              (m_bufferPong s1) (m_bufferPingHead s1) (m_frameSeekSupported s1)
              (m_packets s1) (m_codec s1) in
  let '(frames, s2) := getStreamFrames s1 in
  let '(duration, s3) := getStreamDuration s2 in
  mkStream format streamID bufferLength (m_startTimeStamp s3) frames duration
    (m_bufferPing s3) (m_bufferPong s3) (m_bufferPingHead s3)
    (m_frameSeekSupported s3) (m_packets s3) (m_codec s3).

End StreamModel.

(** ** Predicates on the stream state used by the properties below *)

Section StreamPredicates.
Context `{FFmpeg} `{FrameDefault}.

(** The read head stays inside the ping buffer, and every slot before it
    holds the released frame [popFrame] stores there. *)
Definition cursor_ok (s : Stream) : Prop :=
  (m_bufferPingHead s <= length (m_bufferPing s))%nat
  /\ forall j, (j < m_bufferPingHead s)%nat ->
       nth j (m_bufferPing s) Frame_default = Frame_default.

(** [s] agrees with [s0] from slot [from] of the ping buffer on (same length
    of the ping buffer), and on the pong buffer, the demuxer and the decoder. *)
Definition agrees_from (s0 s : Stream) (from : nat) : Prop :=
  length (m_bufferPing s) = length (m_bufferPing s0)
  /\ (forall j, (from <= j)%nat ->
        nth j (m_bufferPing s) Frame_default = nth j (m_bufferPing s0) Frame_default)
  /\ m_packets s = m_packets s0 /\ m_codec s = m_codec s0
  /\ m_bufferPong s = m_bufferPong s0.

(** The stopping test of the walk of [seekInternal]. *)
Definition time_reached (timeStamp : Z) (frame : Frame) (s : Stream) : bool :=
  (timeStamp <=? getTimeStamp frame)
  || ((timeStamp >? getTimeStamp frame) && (timeStamp <? getTimeStamp frame + getFrameTime s)).

(** A frame of the buffers as [decodeNextBlock] builds it from a decoded
    [AVFrame]: time stamp and frame number from its [best_effort_timestamp]. *)
Definition decoded_from (s : Stream) (f : Frame) : Prop :=
  exists af, m_frame f = Some af
    /\ m_timeStamp f = Stream_timeStampToTime s (best_effort_timestamp af)
    /\ m_frameNum f = Stream_timeStampToFrame s (best_effort_timestamp af).

End StreamPredicates.

(** The time stamp [getStreamStartTime] takes from a packet: its pts, or
    its dts when the pts is not set. *)
Definition packet_time_stamp (packet : AVPacket) : Z :=
  if pts packet =? AV_NOPTS_VALUE then dts packet else pts packet.

(** Whether a read result is a packet of substream [index]. *)
Definition is_stream_packet (index : Z) (r : ReadResult) : bool :=
  match r with ReadPacket p => stream_index p =? index | ReadError _ => false end.

(** ** Aspect ratios (doubles as primitive binary64 floats) *)

Definition double_of_Z (z : Z) : float :=
  if z <? 0 then (- of_uint63 (Uint63.of_Z (- z)))%float else of_uint63 (Uint63.of_Z z).

Definition av_q2d (a : AVRational) : float := (double_of_Z (num a) / double_of_Z (den a))%float.

(** Frame::getAspectRatio, on the frame's [AVFrame]. *)
Definition Frame_getAspectRatio (frame : AVFrame) : float :=
  (double_of_Z (width frame) / double_of_Z (height frame))%float.

(** Stream::getAspectRatio. *)
Definition Stream_getAspectRatio (stream : AVFormatInfo) : float :=
  if negb (num (st_display_aspect_ratio stream) =? 0)
  then av_q2d (st_display_aspect_ratio stream)
  else (double_of_Z (st_width stream) / double_of_Z (st_height stream))%float.

(** ** A sample demuxer and decoder

    Every packet of stream 0 decodes to one 640x480 frame whose
    [best_effort_timestamp] is the packet's pts; timestamp seeks are
    rejected and [av_seek_frame] lands at the start of [file]. *)
Module Sample.

Definition sample_ffmpeg (file : list ReadResult) : FFmpeg := {|
  Codec := list AVFrame;
  avcodec_send_packet := fun c p => (0, c ++ [mkAVFrame (pts p) 640 480]);
  avcodec_receive_frames := fun c => (c, AVERROR_EAGAIN, []);
  avcodec_flush_buffers := fun _ => [];
  avformat_seek_file := fun _ _ _ _ _ => (-1, []);
  av_seek_frame := fun _ _ _ => (0, file);
  codec_cap_delay := fun _ => false;
  codec_delay := fun _ => 0;
  codec_has_b_frames := fun _ => 0;
|}.

Definition sample_default : FrameDefault := {| Frame_default := mkFrame None 0 0 |}.

(** 30 fps in a 1/30 time base: a time stamp is a frame number. *)
Definition fmt30 : AVFormatInfo := {|
  fmt_duration := 0;
  st_time_base := av_make_q 1 30;
  st_r_frame_rate := av_make_q 30 1;
  st_start_time := 0;
  st_first_dts := 0;
  st_nb_frames := 0;
  st_duration := 0;
  st_display_aspect_ratio := av_make_q 0 1;
  st_width := 640;
  st_height := 480;
|}.

Definition packets (from count : Z) : list ReadResult :=
  map (fun k => ReadPacket (mkPacket 0 k k)) (map Z.of_nat (seq (Z.to_nat from) (Z.to_nat count))).

Definition stream30 (bufferLength : Z) (ping : list Frame) (head : nat) (latch : bool)
    (pkts : list ReadResult) : @Stream (sample_ffmpeg []) :=
  @mkStream (sample_ffmpeg []) fmt30 0 bufferLength 0 0 0 ping [] head latch pkts [].

Definition frame30 (k : Z) : Frame :=
  mkFrame (Some (mkAVFrame k 640 480)) (timeStampToTime fmt30 0 k) (timeStampToFrame fmt30 0 k).

(** Buffer length 20, the latch already down, one frame (frame 0) left in
    the ping buffer and packets 1..40 still to read. *)
Definition latched_stream : @Stream (sample_ffmpeg []) :=
  stream30 20 [frame30 0] 0 false (packets 1 40).

(** A 1/25 time base: one tick is longer than a frame at 30 fps. *)
Definition fmt_coarse : AVFormatInfo := {|
  fmt_duration := 0;
  st_time_base := av_make_q 1 25;
  st_r_frame_rate := av_make_q 30 1;
  st_start_time := 0;
  st_first_dts := 0;
  st_nb_frames := 0;
  st_duration := 0;
  st_display_aspect_ratio := av_make_q 0 1;
  st_width := 640;
  st_height := 480;
|}.

(** MPEG-TS style: 90 kHz time base, 29.97 fps. *)
Definition fmt_ntsc : AVFormatInfo := {|
  fmt_duration := 0;
  st_time_base := av_make_q 1 90000;
  st_r_frame_rate := av_make_q 30000 1001;
  st_start_time := 0;
  st_first_dts := 0;
  st_nb_frames := 0;
  st_duration := 0;
  st_display_aspect_ratio := av_make_q 0 1;
  st_width := 720;
  st_height := 480;
|}.

(** A 10 s container at 30 fps whose stream declares [nb_frames]. *)
Definition fmt_declared (nb_frames : Z) : AVFormatInfo := {|
  fmt_duration := 10000000;
  st_time_base := av_make_q 1 30;
  st_r_frame_rate := av_make_q 30 1;
  st_start_time := 0;
  st_first_dts := 0;
  st_nb_frames := nb_frames;
  st_duration := 0;
  st_display_aspect_ratio := av_make_q 0 1;
  st_width := 640;
  st_height := 480;
|}.

Definition declared_stream (nb_frames : Z) : @Stream (sample_ffmpeg []) :=
  @mkStream (sample_ffmpeg []) (fmt_declared nb_frames) 0 4 0 0 0 [] [] 0 true [] [].

(** A file without any declared length whose last packet (frame 299) has a
    pts and no dts. *)
Definition undeclared_file : list ReadResult :=
  [ReadPacket (mkPacket 0 299 AV_NOPTS_VALUE)].

Definition undeclared_stream : @Stream (sample_ffmpeg undeclared_file) :=
  @mkStream (sample_ffmpeg undeclared_file) fmt30 0 4 0 0 0 [] [] 0 true [] [].

(** A 720x576 PAL frame in a stream declaring a 16:9 display aspect. *)
Definition pal_frame : AVFrame := mkAVFrame 0 720 576.

Definition fmt_pal_wide : AVFormatInfo := {|
  fmt_duration := 0;
  st_time_base := av_make_q 1 25;
  st_r_frame_rate := av_make_q 25 1;
  st_start_time := 0;
  st_first_dts := 0;
  st_nb_frames := 0;
  st_duration := 0;
  st_display_aspect_ratio := av_make_q 16 9;
  st_width := 720;
  st_height := 576;
|}.

(** Frames 0..3 in the ping buffer, head 0, no packets left. *)
Definition ready_stream : @Stream (sample_ffmpeg []) :=
  stream30 4 [frame30 0; frame30 1; frame30 2; frame30 3] 0 true [].

(** An empty cursor with three packets to read and a buffer length of 4. *)
Definition short_stream : @Stream (sample_ffmpeg []) :=
  stream30 4 [] 0 true (packets 0 3).

(** An exhausted cursor at the end of the file. *)
Definition eof_stream : @Stream (sample_ffmpeg []) :=
  stream30 4 [] 0 true [].

(** Packets read by the start-time probe: two of stream 0 carry a time
    stamp (5 by pts, 3 by dts), one belongs to stream 1. *)
Definition start_packets : list ReadResult :=
  [ReadPacket (mkPacket 0 5 AV_NOPTS_VALUE); ReadPacket (mkPacket 1 1 1);
   ReadPacket (mkPacket 0 AV_NOPTS_VALUE 3); ReadPacket (mkPacket 0 9 9)].

(** The state a seek returns ([d] when it ran out of fuel). *)
Definition outcome_state {F : FFmpeg} (o : option (bool * @Stream F)) (d : @Stream F)
    : @Stream F :=
  match o with Some (_, s) => s | None => d end.

End Sample.

(** * Properties of the read cursor *)

Section Cursor.
Context `{FFmpeg} `{FrameDefault}.

Lemma replace_nth_length (n : nat) (l : list Frame) (x : Frame) :
  length (replace_nth n l x) = length l.
Proof.
  revert n; induction l as [|h t IH]; intros [|n]; simpl; auto.
Qed.

Lemma replace_nth_same (n : nat) (l : list Frame) (x d : Frame) :
  (n < length l)%nat -> nth n (replace_nth n l x) d = x.
Proof.
  revert n; induction l as [|h t IH]; intros [|n] Hn; simpl in *; try lia; auto.
  apply IH; lia.
Qed.

Lemma replace_nth_other (n k : nat) (l : list Frame) (x d : Frame) :
  k <> n -> nth k (replace_nth n l x) d = nth k l d.
Proof.
  revert n k; induction l as [|h t IH]; intros [|n] [|k] Hk; simpl; auto; try lia.
Qed.

(** The only non-frame value [peekNextFrame] returns is [false]. *)
Lemma peekNextFrame_inl (s s1 : Stream) (b : bool) :
  peekNextFrame s = (inl b, s1) -> b = false.
Proof.
  unfold peekNextFrame.
  destruct (Nat.eqb _ _).
  - destruct (decodeNextBlock s) as [ok s2].
    destruct ok; simpl.
    + destruct (Nat.eqb _ 0); congruence.
    + congruence.
  - congruence.
Qed.

Lemma getNextFrame_inl (s s1 : Stream) (b : bool) :
  getNextFrame s = (inl b, s1) -> b = false.
Proof.
  unfold getNextFrame.
  destruct (peekNextFrame s) as [[b' | f] s2]; congruence.
Qed.

(** A peek with frames left in the ping buffer returns the head frame
    and changes nothing. *)
Lemma peekNextFrame_ready (s : Stream) :
  m_bufferPingHead s <> length (m_bufferPing s) ->
  peekNextFrame s = (inr (head_frame s), s).
Proof.
  intros Hh; unfold peekNextFrame.
  apply Nat.eqb_neq in Hh; rewrite Hh; reflexivity.
Qed.

(** C1 — get_next is peek_next followed, on a frame, by pop: the frame it
    returns is the frame the peek returned, and on a non-frame result it
    returns that same result and the state the peek left, with no pop. *)
Theorem getNextFrame_is_peek_then_pop (s : Stream) :
  getNextFrame s =
    match peekNextFrame s with
    | (inl b, s1) => (inl b, s1)
    | (inr f, s1) => (inr f, popFrame s1)
    end.
Proof.
  unfold getNextFrame.
  destruct (peekNextFrame s) as [[b | f] s1] eqn:E; auto.
  apply peekNextFrame_inl in E; subst; reflexivity.
Qed.

(** [decodeNextBlock] only touches the pong buffer, the demuxer and the
    decoder. *)
Lemma decodeNextBlock_keeps (s : Stream) :
  m_bufferPing (snd (decodeNextBlock s)) = m_bufferPing s
  /\ m_bufferPingHead (snd (decodeNextBlock s)) = m_bufferPingHead s
  /\ m_frameSeekSupported (snd (decodeNextBlock s)) = m_frameSeekSupported s.
Proof.
  unfold decodeNextBlock.
  destruct (decode_loop _ _ _ _) as [[[? ?] ?] ?]; simpl; auto.
Qed.

(** The four outcomes of [peekNextFrame]. *)
Lemma peekNextFrame_cases (s : Stream) :
  (m_bufferPingHead s <> length (m_bufferPing s)
     /\ peekNextFrame s = (inr (head_frame s), s))
  \/ (m_bufferPingHead s = length (m_bufferPing s)
     /\ exists s2, decodeNextBlock s = (false, s2) /\ peekNextFrame s = (inl false, s2))
  \/ (m_bufferPingHead s = length (m_bufferPing s)
     /\ exists s2, decodeNextBlock s = (true, s2) /\ m_bufferPong s2 = []
        /\ peekNextFrame s = (inl false, set_buffers s2 [] [] 0))
  \/ (m_bufferPingHead s = length (m_bufferPing s)
     /\ exists s2, decodeNextBlock s = (true, s2) /\ m_bufferPong s2 <> []
        /\ peekNextFrame s = (inr (head_frame (set_buffers s2 (m_bufferPong s2) [] 0)),
                              set_buffers s2 (m_bufferPong s2) [] 0)).
Proof.
  unfold peekNextFrame.
  destruct (Nat.eqb (m_bufferPingHead s) (length (m_bufferPing s))) eqn:Eh.
  - apply Nat.eqb_eq in Eh.
    destruct (decodeNextBlock s) as [ok s2] eqn:Ed.
    destruct ok; cbn [negb set_buffers m_bufferPing m_bufferPingHead m_bufferPong].
    + destruct (m_bufferPong s2) as [|f l] eqn:Ep; simpl.
      * right; right; left. split; auto.
        exists s2; repeat split; try reflexivity; congruence.
      * right; right; right. split; auto.
        exists s2; repeat split; [congruence|].
        rewrite Ep; reflexivity.
    + right; left. split; auto. exists s2; auto.
  - left. apply Nat.eqb_neq in Eh. split; auto.
Qed.

(** C2 — peek_next does not advance the cursor: [m_bufferPingHead] is
    unchanged, except that a refill (head at the end of the ping buffer and
    the decode succeeding) swaps the buffers and sets it to 0; and a peek
    that returned a frame, peeked again, returns that same frame (same time
    stamp and frame number) and leaves the state as it is. *)
Theorem peekNextFrame_idempotent (s : Stream) :
  (forall r s1, peekNextFrame s = (r, s1) ->
     m_bufferPingHead s1 = m_bufferPingHead s
     \/ (m_bufferPingHead s = length (m_bufferPing s) /\ m_bufferPingHead s1 = 0%nat))
  /\ (forall f s1, peekNextFrame s = (inr f, s1) ->
     peekNextFrame s1 = (inr f, s1)
     /\ getTimeStamp f = getTimeStamp (head_frame s1)
     /\ getFrameNumber f = getFrameNumber (head_frame s1)).
Proof.
  destruct (peekNextFrame_cases s)
    as [[Hh E] | [[Hh [s2 [Ed E]]] | [[Hh [s2 [Ed [Hp E]]]] | [Hh [s2 [Ed [Hp E]]]]]]];
    rewrite E; split; intros r s1 Er; inversion Er; subst.
  - left; reflexivity.
  - rewrite peekNextFrame_ready; auto.
  - left. pose proof (decodeNextBlock_keeps s) as K. rewrite Ed in K; simpl in K. tauto.
  - right; split; auto.
  - right; split; auto.
  - rewrite peekNextFrame_ready; auto.
    cbn [set_buffers m_bufferPing m_bufferPingHead].
    destruct (m_bufferPong s2); simpl; [congruence | discriminate].
Qed.

(** C8 — pop with [m_bufferPingHead < len(ping)] releases the frame at the
    head (the slot now holds a default-constructed Frame, the other slots
    and the length are unchanged) and increments the head by exactly one,
    leaving the rest of the state alone; pop with the head at the end of
    the ping buffer leaves the whole state unchanged. *)
Theorem popFrame_spec (s : Stream) :
  ((m_bufferPingHead s < length (m_bufferPing s))%nat ->
     m_bufferPingHead (popFrame s) = S (m_bufferPingHead s)
     /\ nth (m_bufferPingHead s) (m_bufferPing (popFrame s)) Frame_default = Frame_default
     /\ length (m_bufferPing (popFrame s)) = length (m_bufferPing s)
     /\ (forall k d, k <> m_bufferPingHead s ->
           nth k (m_bufferPing (popFrame s)) d = nth k (m_bufferPing s) d)
     /\ m_bufferPong (popFrame s) = m_bufferPong s
     /\ m_frameSeekSupported (popFrame s) = m_frameSeekSupported s
     /\ m_packets (popFrame s) = m_packets s
     /\ m_codec (popFrame s) = m_codec s)
  /\ (m_bufferPingHead s = length (m_bufferPing s) -> popFrame s = s).
Proof.
  unfold popFrame; split; intros Hh.
  - destruct (length (m_bufferPing s) <=? m_bufferPingHead s)%nat eqn:E.
    + apply Nat.leb_le in E; lia.
    + simpl. repeat split; auto.
      * apply replace_nth_same; auto.
      * apply replace_nth_length.
      * intros k d Hk; apply replace_nth_other; auto.
  - rewrite Hh, Nat.leb_refl; reflexivity.
Qed.

(** C10 — end of stream and decode failure give the same value: every
    non-frame result of peek_next and get_next is [false]; in particular
    both the failed refill and the refill that produced no frame return
    [inl false]. *)
Theorem eof_and_error_indistinguishable (s : Stream) :
  (forall b s1, peekNextFrame s = (inl b, s1) -> b = false)
  /\ (forall b s1, getNextFrame s = (inl b, s1) -> b = false)
  /\ (m_bufferPingHead s = length (m_bufferPing s) ->
        (fst (decodeNextBlock s) = false -> fst (peekNextFrame s) = inl false)
        /\ (fst (decodeNextBlock s) = true -> m_bufferPong (snd (decodeNextBlock s)) = [] ->
              fst (peekNextFrame s) = inl false)).
Proof.
  split; [intros; eapply peekNextFrame_inl; eauto|].
  split; [intros; eapply getNextFrame_inl; eauto|].
  intros Hh; unfold peekNextFrame; rewrite Hh, Nat.eqb_refl.
  destruct (decodeNextBlock s) as [ok s2]; simpl.
  split; intros E; [subst; reflexivity|].
  intros Hp; subst; simpl; rewrite Hp; reflexivity.
Qed.

(** ** get_sequence as the claim describes it

    [ascending_from start l]: no element is below the running [start]
    (which becomes [i + 1] after each element [i]). [take_relative] reads
    the sequence as relative offsets: for each gap, that many frames are
    popped (each validated by a peek), then one frame is taken with
    get_next. *)
Fixpoint ascending_from (start : Z) (l : list Z) : bool :=
  match l with
  | [] => true
  | i :: rest => (start <=? i) && ascending_from (i + 1) rest
  end.

Fixpoint relative_gaps (start : Z) (l : list Z) : list nat :=
  match l with
  | [] => []
  | i :: rest => Z.to_nat (i - start) :: relative_gaps (i + 1) rest
  end.

Fixpoint take_relative (gaps : list nat) (s : Stream) : (bool + list Frame) * Stream :=
  match gaps with
  | [] => (inr [], s)
  | g :: gs =>
      match skip_frames g s with
      | (false, s1) => (inl false, s1)
      | (true, s1) =>
          match getNextFrame s1 with
          | (inl _, s2) => (inl false, s2)
          | (inr f, s2) =>
              match take_relative gs s2 with
              | (inl b, s3) => (inl b, s3)
              | (inr fs, s3) => (inr (f :: fs), s3)
              end
          end
      end
  end.

Lemma sequence_loop_invalid (l : list Z) (start : Z) (ret : list Frame) (s : Stream) :
  ascending_from start l = false -> fst (sequence_loop l start ret s) = inl false.
Proof.
  revert start ret s; induction l as [|i rest IH]; intros start ret s Ha; simpl in *.
  - discriminate.
  - destruct (i <? start) eqn:Ei; [reflexivity|].
    assert (Hle : (start <=? i) = true) by (apply Z.leb_le; apply Z.ltb_ge in Ei; lia).
    rewrite Hle in Ha; simpl in Ha.
    destruct (skip_frames _ s) as [ok s1]; destruct ok; [|reflexivity]; simpl.
    destruct (getNextFrame s1) as [[b | f] s2]; [reflexivity|].
    apply IH; exact Ha.
Qed.

Lemma sequence_loop_relative (l : list Z) (start : Z) (ret : list Frame) (s : Stream) :
  ascending_from start l = true ->
  sequence_loop l start ret s =
    match take_relative (relative_gaps start l) s with
    | (inl b, s') => (inl b, s')
    | (inr fs, s') => (inr (ret ++ fs), s')
    end.
Proof.
  revert start ret s; induction l as [|i rest IH]; intros start ret s Ha; simpl in *.
  - rewrite app_nil_r; reflexivity.
  - apply andb_prop in Ha as [Hi Ha]; apply Z.leb_le in Hi.
    assert (Ei : (i <? start) = false) by (apply Z.ltb_ge; lia).
    rewrite Ei.
    destruct (skip_frames _ s) as [ok s1]; destruct ok; [|reflexivity]; simpl.
    destruct (getNextFrame s1) as [[b | f] s2] eqn:Eg.
    + apply getNextFrame_inl in Eg; subst; reflexivity.
    + rewrite IH by exact Ha.
      destruct (take_relative _ s2) as [[b | fs] s3]; auto.
      rewrite <- app_assoc; reflexivity.
Qed.

Lemma take_relative_length (gaps : list nat) (s s' : Stream) (fs : list Frame) :
  take_relative gaps s = (inr fs, s') -> length fs = length gaps.
Proof.
  revert s fs; induction gaps as [|g gs IH]; intros s fs E; simpl in E.
  - inversion E; reflexivity.
  - destruct (skip_frames g s) as [[|] s1]; [|discriminate].
    destruct (getNextFrame s1) as [[b | f] s2]; [discriminate|].
    destruct (take_relative gs s2) as [[b | fs'] s3] eqn:Et; inversion E; subst.
    simpl; f_equal; eapply IH; eauto.
Qed.

Lemma relative_gaps_length (start : Z) (l : list Z) :
  length (relative_gaps start l) = length l.
Proof.
  revert start; induction l; simpl; auto.
Qed.

(** C7 — get_sequence rejects (returns the failure value [false]) every
    list in which some element is below the running [start] (0 at first,
    [i + 1] after each element [i]); on a list with no such element it
    reads the indices as offsets relative to the cursor: it equals, for
    each index, popping the [i - start] intervening frames (each validated
    by a peek) and appending the frame of get_next, and a successful
    result holds one frame per index, in order. *)
Theorem getNextFrameSequence_spec (l : list Z) (s : Stream) :
  (ascending_from 0 l = false -> fst (getNextFrameSequence l s) = inl false)
  /\ (ascending_from 0 l = true ->
        getNextFrameSequence l s = take_relative (relative_gaps 0 l) s
        /\ forall fs s', getNextFrameSequence l s = (inr fs, s') -> length fs = length l).
Proof.
  unfold getNextFrameSequence; split; intros Ha.
  - apply sequence_loop_invalid; exact Ha.
  - rewrite sequence_loop_relative by exact Ha.
    destruct (take_relative _ s) as [[b | fs] s'] eqn:Et; split; auto.
    + intros fs' s'' E; discriminate.
    + intros fs' s'' E; inversion E; subst.
      rewrite <- (relative_gaps_length 0 l).
      eapply take_relative_length; eauto.
Qed.

(** ** The frame-seek latch *)

Lemma peekNextFrame_latch (s s1 : Stream) (r : bool + Frame) :
  peekNextFrame s = (r, s1) -> m_frameSeekSupported s1 = m_frameSeekSupported s.
Proof.
  intros E.
  pose proof (decodeNextBlock_keeps s) as K.
  destruct (peekNextFrame_cases s)
    as [[Hh E'] | [[Hh [s2 [Ed E']]] | [[Hh [s2 [Ed [Hp E']]]] | [Hh [s2 [Ed [Hp E']]]]]]];
    rewrite E' in E; inversion E; subst; try reflexivity;
    rewrite Ed in K; simpl in K; destruct K as [_ [_ K]]; exact K.
Qed.

Lemma popFrame_latch (s : Stream) :
  m_frameSeekSupported (popFrame s) = m_frameSeekSupported s.
Proof.
  unfold popFrame; destruct (_ <=? _)%nat; reflexivity.
Qed.

Lemma getNextFrame_latch (s s1 : Stream) (r : bool + Frame) :
  getNextFrame s = (r, s1) -> m_frameSeekSupported s1 = m_frameSeekSupported s.
Proof.
  unfold getNextFrame.
  destruct (peekNextFrame s) as [[b | f] s2] eqn:E; intros Eg; inversion Eg; subst;
    [|rewrite popFrame_latch]; eapply peekNextFrame_latch; eauto.
Qed.

Lemma skip_frames_latch (k : nat) (s s1 : Stream) (b : bool) :
  skip_frames k s = (b, s1) -> m_frameSeekSupported s1 = m_frameSeekSupported s.
Proof.
  revert s; induction k as [|k IH]; intros s E; simpl in E.
  - inversion E; reflexivity.
  - destruct (peekNextFrame s) as [[? | ?] s2] eqn:Ep.
    + inversion E; subst; eapply peekNextFrame_latch; eauto.
    + rewrite (IH _ E), popFrame_latch; eapply peekNextFrame_latch; eauto.
Qed.

Lemma getNextFrameSequence_latch (l : list Z) (s s1 : Stream) (r : bool + list Frame) :
  getNextFrameSequence l s = (r, s1) -> m_frameSeekSupported s1 = m_frameSeekSupported s.
Proof.
  unfold getNextFrameSequence. generalize 0 as start. generalize (@nil Frame) as ret.
  revert s; induction l as [|i rest IH]; intros s ret start E; simpl in E.
  - inversion E; reflexivity.
  - destruct (i <? start); [inversion E; reflexivity|].
    destruct (skip_frames _ s) as [ok s2] eqn:Es.
    apply skip_frames_latch in Es.
    destruct ok; simpl in E; [|inversion E; subst; exact Es].
    destruct (getNextFrame s2) as [[? | f] s3] eqn:Eg;
      apply getNextFrame_latch in Eg.
    + inversion E; subst; congruence.
    + rewrite (IH _ _ _ E); congruence.
Qed.

(** Breaks the [if]s, the [let '(_, _)] and the peeks of a hypothesis. *)
Ltac break_in H :=
  repeat match type of H with
  | context [if ?c then _ else _] => destruct c eqn:?
  | context [match peekNextFrame ?x with _ => _ end] =>
      let E := fresh "Ep" in
      destruct (peekNextFrame x) as [[? | ?] ?] eqn:E;
      apply peekNextFrame_latch in E
  | context [let '(_, _) := ?p in _] => destruct p
  end.

Lemma walk_time_latch (fuel : nat) (t : Z) (s s1 : Stream) (b : bool) :
  walk_time fuel t s = Some (b, s1) -> m_frameSeekSupported s1 = m_frameSeekSupported s.
Proof.
  revert s; induction fuel as [|fuel IH]; intros s E; simpl in E; [discriminate|].
  break_in E; try (inversion E; subst; assumption).
  rewrite (IH _ E), popFrame_latch; assumption.
Qed.

Lemma walk_frame_latch (fuel : nat) (n : Z) (s s1 : Stream) (b : bool) :
  walk_frame fuel n s = Some (b, s1) -> m_frameSeekSupported s1 = m_frameSeekSupported s.
Proof.
  revert s; induction fuel as [|fuel IH]; intros s E; simpl in E; [discriminate|].
  break_in E; try (inversion E; subst; assumption).
  rewrite (IH _ E), popFrame_latch; assumption.
Qed.

Lemma seekInternal_latch (fuel : nat) (t : Z) (recursed : bool) (s s1 : Stream) (b : bool) :
  seekInternal fuel t recursed s = Some (b, s1) ->
  m_frameSeekSupported s1 = m_frameSeekSupported s.
Proof.
  revert recursed s; induction fuel as [|fuel IH]; intros recursed s E; simpl in E;
    [discriminate|].
  break_in E;
    try (apply walk_time_latch in E; assumption);
    try (apply IH in E; rewrite E);
    try (inversion E; subst);
    cbn [m_frameSeekSupported set_demux set_buffers clear_ping] in *; congruence.
Qed.

Lemma seekFrameInternal_latch (fuel : nat) (n : Z) (recursed : bool) (s s1 : Stream) (b : bool) :
  seekFrameInternal fuel n recursed s = Some (b, s1) ->
  m_frameSeekSupported s = false -> m_frameSeekSupported s1 = false.
Proof.
  revert recursed s; induction fuel as [|fuel IH]; intros recursed s E Hs; simpl in E;
    [discriminate|].
  break_in E;
    try (apply walk_frame_latch in E; congruence);
    try (apply seekInternal_latch in E; rewrite E);
    try (apply IH in E; [exact E|]);
    try (inversion E; subst);
    cbn [m_frameSeekSupported set_demux set_buffers clear_ping set_frameSeekSupported] in *;
    congruence.
Qed.

Lemma getStreamStartTime_latch (s : Stream) :
  m_frameSeekSupported (snd (getStreamStartTime s)) = m_frameSeekSupported s.
Proof.
  unfold getStreamStartTime.
  repeat match goal with
  | |- context [if ?c then _ else _] => destruct c
  | |- context [let '(_, _) := ?p in _] => destruct p
  | |- context [match ?p with inl _ => _ | inr _ => _ end] => destruct p as [? | [? ?]]
  end; reflexivity.
Qed.

Lemma scan_last_timestamp_latch (s : Stream) :
  m_frameSeekSupported (snd (scan_last_timestamp s)) = m_frameSeekSupported s.
Proof.
  unfold scan_last_timestamp.
  repeat match goal with
  | |- context [if ?c then _ else _] => destruct c
  | |- context [let '(_, _) := ?p in _] => destruct p
  end; reflexivity.
Qed.

Lemma getStreamFrames_latch (s : Stream) :
  m_frameSeekSupported (snd (getStreamFrames s)) = m_frameSeekSupported s.
Proof.
  unfold getStreamFrames.
  pose proof (scan_last_timestamp_latch s) as K.
  repeat match goal with
  | |- context [if ?c then _ else _] => destruct c
  end; try reflexivity.
  destruct (scan_last_timestamp s) as [[?|] ?]; exact K.
Qed.

Lemma getStreamDuration_latch (s : Stream) :
  m_frameSeekSupported (snd (getStreamDuration s)) = m_frameSeekSupported s.
Proof.
  unfold getStreamDuration.
  pose proof (scan_last_timestamp_latch s) as K.
  repeat match goal with
  | |- context [if ?c then _ else _] => destruct c
  end; try reflexivity.
  destruct (scan_last_timestamp s) as [[?|] ?]; exact K.
Qed.

Lemma Stream_create_latch (format : AVFormatInfo) (streamID : Z) (codec : Codec)
    (bufferLength : Z) (pkts : list ReadResult) :
  m_frameSeekSupported (Stream_create format streamID codec bufferLength pkts) = true.
Proof.
  unfold Stream_create.
  match goal with |- context [getStreamStartTime ?x] =>
    pose proof (getStreamStartTime_latch x) as K1; destruct (getStreamStartTime x) as [st s1] end.
  match goal with |- context [getStreamFrames ?x] =>
    pose proof (getStreamFrames_latch x) as K2; destruct (getStreamFrames x) as [fr s2] end.
  match goal with |- context [getStreamDuration ?x] =>
    pose proof (getStreamDuration_latch x) as K3; destruct (getStreamDuration x) as [du s3] end.
  simpl in *; congruence.
Qed.

(** The target of [seekFrame] is reached without a demuxer seek: by the
    walk through the ping buffer or by the forward decode of at most
    [2 * m_bufferLength] frames (the first two branches of
    [seekFrameInternal]). *)
Definition frame_in_reach (s : Stream) (frame : Z) : bool :=
  (0 <? length (m_bufferPing s))%nat
  && (((m_bufferPingHead s <? length (m_bufferPing s))%nat
       && (frame >=? getFrameNumber (head_frame s))
       && (frame <=? getFrameNumber (back s)))
      || ((frame >? getFrameNumber (back s))
          && (frame <=? getFrameNumber (back s) + (m_bufferLength s * 2) mod 2 ^ 32))).


(** When the target is out of reach, [seekFrameInternal] goes straight to
    its third part: the fallback test, then the frame-flagged seek. *)
Lemma seekFrameInternal_unreached (fuel : nat) (frame : Z) (recursed : bool) (s : Stream) :
  frame_in_reach s frame = false ->
  seekFrameInternal (S fuel) frame recursed s =
    if recursed || negb (m_frameSeekSupported s) then
      if m_frameSeekSupported s then
        seek fuel (Stream_frameToTime s frame) (set_frameSeekSupported s false)
      else if recursed then Some (false, s)
      else seek fuel (Stream_frameToTime s frame) s
    else
    let s1 := set_demux s (m_packets s) (avcodec_flush_buffers (m_codec s)) in
    let frameInternal := frame + Stream_timeStampToFrame s1 (m_startTimeStamp s1) in
    let '(err, pkts) :=
      avformat_seek_file (m_index s1) INT64_MIN frameInternal frameInternal AVSEEK_FLAG_FRAME in
    if err <? 0 then
      seek fuel (Stream_frameToTime s1 frame) (set_frameSeekSupported s1 false)
    else
    match peekNextFrame (clear_ping (set_demux s1 pkts (m_codec s1))) with
    | (inl _, s2) => Some (false, s2)
    | (inr _, s2) => seekFrameInternal fuel frame true s2
    end.
Proof.
  unfold frame_in_reach; intros Hr.
  cbn [seekFrameInternal].
  destruct (0 <? length (m_bufferPing s))%nat eqn:E1; cbn [andb] in Hr; [|reflexivity].
  apply orb_false_iff in Hr as [HB HC].
  rewrite HB.
  destruct (frame >? getFrameNumber (back s)) eqn:E2; cbn [andb] in HC; [|reflexivity].
  rewrite HC; reflexivity.
Qed.

(** When the target is in reach, [seekFrameInternal] is the peek/pop walk,
    whatever the latch and the recursion flag. *)
Lemma seekFrameInternal_reached (fuel : nat) (frame : Z) (recursed : bool) (s : Stream) :
  frame_in_reach s frame = true ->
  seekFrameInternal (S fuel) frame recursed s = walk_frame fuel frame s.
Proof.
  unfold frame_in_reach; intros Hr.
  cbn [seekFrameInternal].
  destruct (0 <? length (m_bufferPing s))%nat eqn:E1; cbn [andb] in Hr; [|discriminate].
  destruct ((m_bufferPingHead s <? length (m_bufferPing s))%nat
            && (frame >=? getFrameNumber (head_frame s))
            && (frame <=? getFrameNumber (back s))) eqn:HB; [reflexivity|].
  cbn [orb] in Hr.
  apply andb_prop in Hr as [HC HD].
  rewrite HC, HD; reflexivity.
Qed.

(** C4 (amended) — [m_frameSeekSupported] starts true and is a one-way
    latch: no operation sets it back to true. It falls to false when the
    frame-flagged demuxer seek is rejected, and when the recursed locate
    (the call made after a frame-flagged seek) finds the target neither in
    the ping buffer nor within the forward range; both then retry as
    [seek(frameToTime(frame))]. Once it is false, a [seekFrame(frame)] whose
    target is out of reach of the in-buffer walk and of the short forward
    decode skips the frame-flagged seek and is [seek(frameToTime(frame))];
    a target within that reach is located by the in-buffer walk or the
    forward decode (the peek/pop loop [walk_frame]), whatever the latch. *)
Theorem frameSeekSupported_one_way_latch :
  (forall format streamID codec bufferLength pkts,
     m_frameSeekSupported (Stream_create format streamID codec bufferLength pkts) = true)
  /\ (forall s r s1, peekNextFrame s = (r, s1) ->
        m_frameSeekSupported s1 = m_frameSeekSupported s)
  /\ (forall s, m_frameSeekSupported (popFrame s) = m_frameSeekSupported s)
  /\ (forall s r s1, getNextFrame s = (r, s1) ->
        m_frameSeekSupported s1 = m_frameSeekSupported s)
  /\ (forall l s r s1, getNextFrameSequence l s = (r, s1) ->
        m_frameSeekSupported s1 = m_frameSeekSupported s)
  /\ (forall fuel t s b s1, seek fuel t s = Some (b, s1) ->
        m_frameSeekSupported s1 = m_frameSeekSupported s)
  /\ (forall fuel n s b s1, seekFrame fuel n s = Some (b, s1) ->
        m_frameSeekSupported s = false -> m_frameSeekSupported s1 = false)
  /\ (forall fuel n s err pkts,
        m_frameSeekSupported s = true -> frame_in_reach s n = false ->
        avformat_seek_file (m_index s) INT64_MIN
          (n + Stream_timeStampToFrame s (m_startTimeStamp s))
          (n + Stream_timeStampToFrame s (m_startTimeStamp s)) AVSEEK_FLAG_FRAME = (err, pkts) ->
        err < 0 ->
        seekFrame (S fuel) n s =
          seek fuel (Stream_frameToTime s n)
            (set_frameSeekSupported
               (set_demux s (m_packets s) (avcodec_flush_buffers (m_codec s))) false))
  /\ (forall fuel n s,
        m_frameSeekSupported s = true -> frame_in_reach s n = false ->
        seekFrameInternal (S fuel) n true s =
          seek fuel (Stream_frameToTime s n) (set_frameSeekSupported s false))
  /\ (forall fuel n s,
        m_frameSeekSupported s = false -> frame_in_reach s n = false ->
        seekFrame (S fuel) n s = seek fuel (Stream_frameToTime s n) s)
  /\ (forall fuel n s,
        frame_in_reach s n = true ->
        seekFrame (S fuel) n s = walk_frame fuel n s).
Proof.
  split; [exact Stream_create_latch|].
  split; [intros; eapply peekNextFrame_latch; eauto|].
  split; [exact popFrame_latch|].
  split; [intros; eapply getNextFrame_latch; eauto|].
  split; [intros; eapply getNextFrameSequence_latch; eauto|].
  split; [intros; eapply seekInternal_latch; eauto|].
  split; [intros; eapply seekFrameInternal_latch; eauto|].
  split; [|split].
  - intros fuel n s err pkts Hs Hr Ea Herr.
    unfold seekFrame; rewrite seekFrameInternal_unreached by exact Hr.
    rewrite Hs; cbn [orb negb].
    cbn [set_demux m_index m_startTimeStamp m_format].
    unfold Stream_timeStampToFrame in *; cbn [set_demux m_format m_startTimeStamp] in *.
    rewrite Ea.
    apply Z.ltb_lt in Herr; rewrite Herr; reflexivity.
  - intros fuel n s Hs Hr.
    rewrite seekFrameInternal_unreached by exact Hr.
    rewrite Hs; reflexivity.
  - split.
    + intros fuel n s Hs Hr.
      unfold seekFrame; rewrite seekFrameInternal_unreached by exact Hr.
      rewrite Hs; reflexivity.
    + intros fuel n s Hr.
      unfold seekFrame; apply seekFrameInternal_reached; exact Hr.
Qed.

End Cursor.

(** * The TimeMap round trip *)

Lemma rescale_round_trip_core (n P Q : Z) :
  0 <= n -> 0 < Q -> Q <= P ->
  ((n * P + Q / 2) / Q * Q + P / 2) / P = n.
Proof.
  intros Hn HQ HQP.
  set (x := (n * P + Q / 2) / Q).
  pose proof (Z.div_mod (n * P + Q / 2) Q ltac:(lia)) as Dx.
  pose proof (Z.mod_pos_bound (n * P + Q / 2) Q HQ) as Mx.
  fold x in Dx.
  pose proof (Z.div_mod Q 2 ltac:(lia)) as DQ.
  pose proof (Z.mod_pos_bound Q 2 ltac:(lia)) as MQ.
  pose proof (Z.div_mod P 2 ltac:(lia)) as DP.
  pose proof (Z.mod_pos_bound P 2 ltac:(lia)) as MP.
  symmetry; apply (Z.div_unique_pos _ _ _ (x * Q + P / 2 - P * n)); [|lia].
  assert (Hxq : Q * x = x * Q) by ring.
  split; [lia|].
  destruct (Z.eq_dec (x * Q + P / 2 - P * n) P) as [Heq|Hne]; [|lia].
  exfalso.
  assert (HQeqP : Q = P) by lia.
  subst Q.
  assert (Hk : P * (x - n) = P - P / 2) by lia.
  destruct (Z_le_gt_dec (x - n) 0) as [Hle|Hgt]; nia.
Qed.

(** C3 (amended) — the round trip [timeStampToFrame (frameToTimeStamp n) = n]
    holds for every [n >= 0] when time base and frame rate have positive
    numerators and denominators and one frame lasts at least one tick of
    the time base ([frame_rate * time_base <= 1]), the rescaling being
    av_rescale_q's round-half-away-from-zero and the arithmetic exact. *)
Theorem frame_timestamp_round_trip (fmt : AVFormatInfo) (start n : Z)
    (Hn : 0 <= n)
    (Hfr : 0 < num (st_r_frame_rate fmt) /\ 0 < den (st_r_frame_rate fmt))
    (Htb : 0 < num (st_time_base fmt) /\ 0 < den (st_time_base fmt))
    (Hfine : num (st_r_frame_rate fmt) * num (st_time_base fmt)
             <= den (st_r_frame_rate fmt) * den (st_time_base fmt)) :
  timeStampToFrame fmt start (frameToTimeStamp fmt start n) = n.
Proof.
  unfold timeStampToFrame, frameToTimeStamp, av_rescale_q, av_rescale_near_inf, av_inv_q.
  cbn [num den].
  destruct (st_r_frame_rate fmt) as [fn fd], (st_time_base fmt) as [tn td].
  cbn [num den] in *.
  destruct Hfr as [Hfn Hfd], Htb as [Htn Htd].
  set (P := fd * td). set (Q := tn * fn).
  assert (HP : 0 < P) by (unfold P; nia).
  assert (HQ : 0 < Q) by (unfold Q; nia).
  assert (HQP : Q <= P) by (unfold P, Q; nia).
  assert (E1 : (Q <=? 0) || (P <? 0) = false)
    by (apply orb_false_iff; split; [apply Z.leb_gt | apply Z.ltb_ge]; lia).
  rewrite E1.
  assert (E2 : (n <? 0) = false) by (apply Z.ltb_ge; lia).
  rewrite E2.
  assert (Hx : 0 <= (n * P + Q / 2) / Q)
    by (apply Z.div_pos; [pose proof (Z.div_pos Q 2); nia | lia]).
  replace (start + (n * P + Q / 2) / Q - start) with ((n * P + Q / 2) / Q) by ring.
  assert (E3 : (td * fd <=? 0) || (fn * tn <? 0) = false)
    by (apply orb_false_iff; split; [apply Z.leb_gt | apply Z.ltb_ge]; nia).
  rewrite E3.
  assert (E4 : ((n * P + Q / 2) / Q <? 0) = false) by (apply Z.ltb_ge; lia).
  rewrite E4.
  replace (fn * tn) with Q by (unfold Q; ring).
  replace (td * fd) with P by (unfold P; ring).
  apply rescale_round_trip_core; lia.
Qed.

(** * The total-frames probe *)

Section Probes.
Context `{FFmpeg} `{FrameDefault}.

(** C5 (amended) — with a positive container duration, the probe returns
    the duration-derived count [frames] minus [timeStampToFrame(2 *
    start)] when [frames] differs from the declared [nb_frames] by MORE
    than one frame; when they are within one frame it falls through to
    [nb_frames] minus the same correction (if [nb_frames] is positive). *)
Theorem getStreamFrames_duration_branch (s : Stream)
    (Hd : fmt_duration (m_format s) > 0) :
  let frames := av_rescale_q (fmt_duration (m_format s)) (st_r_frame_rate (m_format s))
                  (av_inv_q (av_make_q 1 AV_TIME_BASE)) in
  let correction := Stream_timeStampToFrame s (m_startTimeStamp s * 2) in
  (Z.abs (frames - st_nb_frames (m_format s)) > 1 ->
     fst (getStreamFrames s) = frames - correction)
  /\ (Z.abs (frames - st_nb_frames (m_format s)) <= 1 -> st_nb_frames (m_format s) > 0 ->
     fst (getStreamFrames s) = st_nb_frames (m_format s) - correction).
Proof.
  intros frames correction.
  unfold getStreamFrames; fold frames.
  assert (E1 : (fmt_duration (m_format s) >? 0) = true) by (apply Z.gtb_lt; lia).
  rewrite E1; cbn [andb].
  split; intros Ha.
  - assert (E2 : (Z.abs (frames - st_nb_frames (m_format s)) >? 1) = true)
      by (apply Z.gtb_lt; lia).
    rewrite E2; reflexivity.
  - intros Hnb.
    assert (E2 : (Z.abs (frames - st_nb_frames (m_format s)) >? 1) = false)
      by (rewrite Z.gtb_ltb; apply Z.ltb_ge; lia).
    assert (E3 : (st_nb_frames (m_format s) >? 0) = true) by (apply Z.gtb_lt; lia).
    rewrite E2, E3; reflexivity.
Qed.

End Probes.

(** * The cursor invariant, the decode pump and the seeks *)

Section Extras.
Context `{FFmpeg} `{FrameDefault}.

(** Breaks the [if]s, the peeks and the [let '(_, _)] of a hypothesis,
    keeping their equations. *)
Ltac break_all H :=
  repeat match type of H with
  | context [if ?c then _ else _] => destruct c eqn:?
  | context [match peekNextFrame ?x with _ => _ end] =>
      let E := fresh "Ep" in destruct (peekNextFrame x) as [[? | ?] ?] eqn:E
  | context [let '(_, _) := ?p in _] => destruct p eqn:?
  end.

(** A peek that returned a frame leaves a state whose peek returns that
    frame again, the head frame. *)
Lemma peekNextFrame_again (s s1 : Stream) (f : Frame) :
  peekNextFrame s = (inr f, s1) -> peekNextFrame s1 = (inr f, s1) /\ f = head_frame s1.
Proof.
  destruct (peekNextFrame_cases s)
    as [[Hh E] | [[Hh [s2 [Ed E]]] | [[Hh [s2 [Ed [Hp E]]]] | [Hh [s2 [Ed [Hp E]]]]]]];
    rewrite E; intros Er; inversion Er; subst.
  - split; [apply peekNextFrame_ready; exact Hh | reflexivity].
  - split; [|reflexivity]. apply peekNextFrame_ready.
    cbn [set_buffers m_bufferPing m_bufferPingHead].
    destruct (m_bufferPong s2); simpl; [congruence | discriminate].
Qed.

Lemma decodeNextBlock_format (s : Stream) :
  m_format (snd (decodeNextBlock s)) = m_format s.
Proof.
  unfold decodeNextBlock.
  destruct (decode_loop _ _ _ _) as [[[? ?] ?] ?]; reflexivity.
Qed.

Lemma peekNextFrame_format (s s1 : Stream) (r : bool + Frame) :
  peekNextFrame s = (r, s1) -> m_format s1 = m_format s.
Proof.
  intros E.
  pose proof (decodeNextBlock_format s) as K.
  destruct (peekNextFrame_cases s)
    as [[Hh E'] | [[Hh [s2 [Ed E']]] | [[Hh [s2 [Ed [Hp E']]]] | [Hh [s2 [Ed [Hp E']]]]]]];
    rewrite E' in E; inversion E; subst; try reflexivity;
    rewrite Ed in K; exact K.
Qed.

(** ** The cursor invariant *)

Lemma cursor_ok_clear_ping (s : Stream) : cursor_ok (clear_ping s).
Proof. split; cbn; [lia | intros; lia]. Qed.

Lemma decodeNextBlock_ok (s : Stream) : cursor_ok s -> cursor_ok (snd (decodeNextBlock s)).
Proof.
  unfold decodeNextBlock.
  destruct (decode_loop _ _ _ _) as [[[? ?] ?] ?]; intros Hs; exact Hs.
Qed.

Lemma peekNextFrame_ok (s s1 : Stream) (r : bool + Frame) :
  cursor_ok s -> peekNextFrame s = (r, s1) -> cursor_ok s1.
Proof.
  intros Hs E.
  pose proof (decodeNextBlock_ok s Hs) as K.
  destruct (peekNextFrame_cases s)
    as [[Hh E'] | [[Hh [s2 [Ed E']]] | [[Hh [s2 [Ed [Hp E']]]] | [Hh [s2 [Ed [Hp E']]]]]]];
    rewrite E' in E; inversion E; subst.
  - exact Hs.
  - rewrite Ed in K; exact K.
  - split; cbn; [lia | intros; lia].
  - split; cbn; [lia | intros; lia].
Qed.

Lemma popFrame_ok (s : Stream) : cursor_ok s -> cursor_ok (popFrame s).
Proof.
  intros [Hle Hrel]. unfold popFrame.
  destruct (length (m_bufferPing s) <=? m_bufferPingHead s)%nat eqn:E;
    [split; assumption|].
  apply Nat.leb_gt in E.
  split; cbn [set_buffers m_bufferPing m_bufferPingHead].
  - rewrite replace_nth_length; lia.
  - intros j Hj.
    destruct (Nat.eq_dec j (m_bufferPingHead s)) as [->|Hne].
    + apply replace_nth_same; exact E.
    + rewrite replace_nth_other by exact Hne. apply Hrel; lia.
Qed.

Lemma getNextFrame_ok (s s1 : Stream) (r : bool + Frame) :
  cursor_ok s -> getNextFrame s = (r, s1) -> cursor_ok s1.
Proof.
  intros Hs; unfold getNextFrame.
  destruct (peekNextFrame s) as [[b | f] s2] eqn:E; intros Eg; inversion Eg; subst;
    [|apply popFrame_ok]; eapply peekNextFrame_ok; eauto.
Qed.

Lemma skip_frames_ok (k : nat) (s s1 : Stream) (b : bool) :
  cursor_ok s -> skip_frames k s = (b, s1) -> cursor_ok s1.
Proof.
  revert s; induction k as [|k IH]; intros s Hs E; simpl in E.
  - inversion E; subst; exact Hs.
  - destruct (peekNextFrame s) as [[? | ?] s2] eqn:Ep.
    + inversion E; subst; eapply peekNextFrame_ok; eauto.
    + eapply IH; [|exact E]. apply popFrame_ok; eapply peekNextFrame_ok; eauto.
Qed.

Lemma sequence_loop_ok (l : list Z) (start : Z) (ret : list Frame) (s s1 : Stream)
    (r : bool + list Frame) :
  cursor_ok s -> sequence_loop l start ret s = (r, s1) -> cursor_ok s1.
Proof.
  revert start ret s; induction l as [|i rest IH]; intros start ret s Hs E; simpl in E.
  - inversion E; subst; exact Hs.
  - destruct (i <? start); [inversion E; subst; exact Hs|].
    destruct (skip_frames _ s) as [ok s2] eqn:Es.
    apply skip_frames_ok in Es; [|exact Hs].
    destruct ok; simpl in E; [|inversion E; subst; exact Es].
    destruct (getNextFrame s2) as [[? | f] s3] eqn:Eg;
      apply getNextFrame_ok in Eg; try exact Es.
    + inversion E; subst; exact Eg.
    + eapply IH; eauto.
Qed.

Lemma walk_time_ok (fuel : nat) (t : Z) (s s1 : Stream) (b : bool) :
  cursor_ok s -> walk_time fuel t s = Some (b, s1) -> cursor_ok s1.
Proof.
  revert s; induction fuel as [|fuel IH]; intros s Hs E; simpl in E; [discriminate|].
  destruct (peekNextFrame s) as [[? | f] s2] eqn:Ep;
    apply peekNextFrame_ok in Ep; try exact Hs.
  - inversion E; subst; exact Ep.
  - break_all E; try (inversion E; subst; exact Ep).
    eapply IH; [apply popFrame_ok; exact Ep | exact E].
Qed.

Lemma walk_frame_ok (fuel : nat) (n : Z) (s s1 : Stream) (b : bool) :
  cursor_ok s -> walk_frame fuel n s = Some (b, s1) -> cursor_ok s1.
Proof.
  revert s; induction fuel as [|fuel IH]; intros s Hs E; simpl in E; [discriminate|].
  destruct (peekNextFrame s) as [[? | f] s2] eqn:Ep;
    apply peekNextFrame_ok in Ep; try exact Hs.
  - inversion E; subst; exact Ep.
  - break_all E; try (inversion E; subst; exact Ep).
    eapply IH; [apply popFrame_ok; exact Ep | exact E].
Qed.

(** Turns each peek equation of the context into the invariant for the
    state it returns. *)
Ltac peeks_ok Hs :=
  repeat match goal with
  | Ep : peekNextFrame ?x = (_, ?y) |- _ =>
      let K := fresh "K" in
      assert (K : cursor_ok y)
        by (eapply peekNextFrame_ok; [|exact Ep];
            first [apply cursor_ok_clear_ping | exact Hs]);
      clear Ep
  end.

Lemma seekInternal_ok (fuel : nat) (t : Z) (recursed : bool) (s s1 : Stream) (b : bool) :
  cursor_ok s -> seekInternal fuel t recursed s = Some (b, s1) -> cursor_ok s1.
Proof.
  revert recursed s; induction fuel as [|fuel IH]; intros recursed s Hs E; simpl in E;
    [discriminate|].
  break_all E; peeks_ok Hs;
    try (eapply walk_time_ok; [exact Hs | exact E]);
    try (eapply IH; [eassumption | exact E]);
    inversion E; subst; first [assumption | exact Hs].
Qed.

Lemma seekFrameInternal_ok (fuel : nat) (n : Z) (recursed : bool) (s s1 : Stream) (b : bool) :
  cursor_ok s -> seekFrameInternal fuel n recursed s = Some (b, s1) -> cursor_ok s1.
Proof.
  revert recursed s; induction fuel as [|fuel IH]; intros recursed s Hs E; simpl in E;
    [discriminate|].
  unfold seek in E.
  break_all E; peeks_ok Hs;
    try (eapply walk_frame_ok; [exact Hs | exact E]);
    try (eapply seekInternal_ok; [|exact E]; exact Hs);
    try (eapply IH; [eassumption | exact E]);
    inversion E; subst; first [assumption | exact Hs].
Qed.

(** X1 — The cursor invariant: the read head never passes the end of the
    ping buffer, and every slot before the head holds the released frame.
    Peek, pop, get_next, get_sequence, the decode of the next block, the
    time seek and the frame seek all keep it. *)
Theorem cursor_ok_preserved :
  (forall s, cursor_ok s -> cursor_ok (snd (decodeNextBlock s)))
  /\ (forall s r s1, cursor_ok s -> peekNextFrame s = (r, s1) -> cursor_ok s1)
  /\ (forall s, cursor_ok s -> cursor_ok (popFrame s))
  /\ (forall s r s1, cursor_ok s -> getNextFrame s = (r, s1) -> cursor_ok s1)
  /\ (forall l s r s1, cursor_ok s -> getNextFrameSequence l s = (r, s1) -> cursor_ok s1)
  /\ (forall fuel t s b s1, cursor_ok s -> seek fuel t s = Some (b, s1) -> cursor_ok s1)
  /\ (forall fuel n s b s1, cursor_ok s -> seekFrame fuel n s = Some (b, s1) -> cursor_ok s1).
Proof.
  split; [exact decodeNextBlock_ok|].
  split; [intros; eapply peekNextFrame_ok; eauto|].
  split; [exact popFrame_ok|].
  split; [intros; eapply getNextFrame_ok; eauto|].
  split; [intros l s r s1; apply sequence_loop_ok|].
  split; [intros; eapply seekInternal_ok; eauto|].
  intros; eapply seekFrameInternal_ok; eauto.
Qed.

(** ** Reading inside the ping buffer *)

Lemma popFrame_ready (s : Stream) :
  (m_bufferPingHead s < length (m_bufferPing s))%nat ->
  popFrame s = set_buffers s (replace_nth (m_bufferPingHead s) (m_bufferPing s) Frame_default)
                 (m_bufferPong s) (S (m_bufferPingHead s)).
Proof.
  intros Hh; unfold popFrame.
  destruct (length (m_bufferPing s) <=? m_bufferPingHead s)%nat eqn:E; [|reflexivity].
  apply Nat.leb_le in E; lia.
Qed.

Lemma getNextFrame_ready (s : Stream) :
  (m_bufferPingHead s < length (m_bufferPing s))%nat ->
  getNextFrame s = (inr (head_frame s), popFrame s).
Proof.
  intros Hh; unfold getNextFrame; rewrite peekNextFrame_ready by lia; reflexivity.
Qed.

Lemma agrees_refl (s : Stream) (i : nat) : agrees_from s s i.
Proof. repeat split; auto. Qed.

Lemma agrees_trans (a b c : Stream) (i j : nat) :
  agrees_from a b i -> agrees_from b c j -> (i <= j)%nat -> agrees_from a c j.
Proof.
  intros [L1 [N1 [P1 [C1 Q1]]]] [L2 [N2 [P2 [C2 Q2]]]] Hij.
  repeat split; try congruence.
  intros k Hk; rewrite N2, N1 by lia; reflexivity.
Qed.

Lemma agrees_pop (s : Stream) :
  (m_bufferPingHead s < length (m_bufferPing s))%nat ->
  agrees_from s (popFrame s) (S (m_bufferPingHead s)).
Proof.
  intros Hh; rewrite popFrame_ready by exact Hh.
  repeat split; cbn [set_buffers m_bufferPing m_bufferPong m_packets m_codec].
  - apply replace_nth_length.
  - intros j Hj; apply replace_nth_other; lia.
Qed.

Lemma skip_frames_ready (k : nat) (s : Stream) :
  (m_bufferPingHead s + k <= length (m_bufferPing s))%nat ->
  exists s1, skip_frames k s = (true, s1)
    /\ m_bufferPingHead s1 = (m_bufferPingHead s + k)%nat
    /\ agrees_from s s1 (m_bufferPingHead s + k).
Proof.
  revert s; induction k as [|k IH]; intros s Hk.
  - exists s; split; [reflexivity|]; split; [lia|]. apply agrees_refl.
  - assert (Hh : (m_bufferPingHead s < length (m_bufferPing s))%nat) by lia.
    cbn [skip_frames]. rewrite peekNextFrame_ready by lia.
    assert (Hph : m_bufferPingHead (popFrame s) = S (m_bufferPingHead s))
      by (rewrite popFrame_ready by exact Hh; reflexivity).
    assert (Hpl : length (m_bufferPing (popFrame s)) = length (m_bufferPing s))
      by (rewrite popFrame_ready by exact Hh; apply replace_nth_length).
    destruct (IH (popFrame s)) as [s1 [E [H1 H2]]]; [lia|].
    exists s1; split; [exact E|].
    rewrite Hph in H1, H2.
    split; [lia|].
    replace (m_bufferPingHead s + S k)%nat with (S (m_bufferPingHead s) + k)%nat by lia.
    eapply agrees_trans; [apply agrees_pop; exact Hh | exact H2 | lia].
Qed.

Lemma sequence_loop_in_buffer (l : list Z) (start : Z) (ret : list Frame) (s0 s : Stream)
    (b : nat) :
  0 <= start -> ascending_from start l = true ->
  m_bufferPingHead s = (b + Z.to_nat start)%nat ->
  agrees_from s0 s (m_bufferPingHead s) ->
  (forall i, In i l -> (b + Z.to_nat i < length (m_bufferPing s0))%nat) ->
  exists s', sequence_loop l start ret s =
      (inr (ret ++ map (fun i => nth (b + Z.to_nat i) (m_bufferPing s0) Frame_default) l), s')
    /\ m_packets s' = m_packets s0 /\ m_codec s' = m_codec s0
    /\ m_bufferPong s' = m_bufferPong s0.
Proof.
  revert start ret s; induction l as [|i rest IH]; intros start ret s Hst Ha Hh Hag Hin.
  - exists s; simpl; rewrite app_nil_r.
    destruct Hag as [_ [_ [P [C Q]]]]; auto.
  - cbn [ascending_from] in Ha; apply andb_prop in Ha as [Hi Ha]; apply Z.leb_le in Hi.
    assert (Hi_len : (b + Z.to_nat i < length (m_bufferPing s0))%nat)
      by (apply Hin; left; reflexivity).
    pose proof Hag as [L _].
    cbn [sequence_loop].
    assert (Ei : (i <? start) = false) by (apply Z.ltb_ge; lia).
    rewrite Ei.
    destruct (skip_frames_ready (Z.to_nat (i - start)) s) as [s1 [Es [H1 H2]]]; [lia|].
    rewrite Es; cbn [negb].
    assert (Hag1 : agrees_from s0 s1 (m_bufferPingHead s1)).
    { rewrite H1. eapply agrees_trans; [exact Hag | exact H2 | lia]. }
    pose proof Hag1 as [L1 [N1 _]].
    assert (Hh1 : (m_bufferPingHead s1 < length (m_bufferPing s1))%nat) by lia.
    rewrite getNextFrame_ready by exact Hh1.
    assert (Hf : head_frame s1 = nth (b + Z.to_nat i) (m_bufferPing s0) Frame_default).
    { unfold head_frame. replace (b + Z.to_nat i)%nat with (m_bufferPingHead s1) by lia.
      apply N1; lia. }
    destruct (IH (i + 1) (ret ++ [head_frame s1]) (popFrame s1)) as [s' [E' R']].
    + lia.
    + exact Ha.
    + rewrite popFrame_ready by exact Hh1; cbn [set_buffers m_bufferPingHead]; lia.
    + assert (Hph : m_bufferPingHead (popFrame s1) = S (m_bufferPingHead s1))
        by (rewrite popFrame_ready by exact Hh1; reflexivity).
      rewrite Hph.
      eapply agrees_trans; [exact Hag1 | apply agrees_pop; exact Hh1 | lia].
    + intros j Hj; apply Hin; right; exact Hj.
    + exists s'; split; [|exact R'].
      rewrite E', Hf, <- app_assoc; reflexivity.
Qed.

(** X2 — get_sequence inside the ping buffer: when the indices are valid
    (no index below the running start) and every index [i] keeps
    [head + i] inside the ping buffer, [getNextFrameSequence] succeeds and
    returns, for each index [i], the frame at slot [head + i] of the ping
    buffer, without reading a packet or calling the decoder. *)
Theorem getNextFrameSequence_within_buffer (l : list Z) (s : Stream)
    (Ha : ascending_from 0 l = true)
    (Hin : forall i, In i l ->
             (m_bufferPingHead s + Z.to_nat i < length (m_bufferPing s))%nat) :
  exists s', getNextFrameSequence l s =
      (inr (map (fun i => nth (m_bufferPingHead s + Z.to_nat i) (m_bufferPing s) Frame_default) l), s')
    /\ m_packets s' = m_packets s /\ m_codec s' = m_codec s
    /\ m_bufferPong s' = m_bufferPong s.
Proof.
  unfold getNextFrameSequence.
  destruct (sequence_loop_in_buffer l 0 [] s s (m_bufferPingHead s)) as [s' [E R]].
  - lia.
  - exact Ha.
  - cbn; lia.
  - apply agrees_refl.
  - exact Hin.
  - exists s'; split; [exact E | exact R].
Qed.

(** ** The decode pump *)

Lemma decode_loop_short (s : Stream) (pkts : list ReadResult) (codec : Codec)
    (pong pong' : list Frame) (rest : list ReadResult) (codec' : Codec) :
  decode_loop s pkts codec pong = (true, pong', rest, codec') ->
  Z.of_nat (length pong') < m_bufferLength s ->
  rest = [] \/ exists pre, pkts = pre ++ ReadError AVERROR_EOF :: rest.
Proof.
  revert codec pong; induction pkts as [|[packet | ret] pkts IH]; intros codec pong E Hl;
    cbn [decode_loop] in E.
  - inversion E; subst; left; reflexivity.
  - destruct (m_index s =? stream_index packet).
    + destruct (avcodec_send_packet codec packet) as [ret codec1].
      destruct (ret <? 0); [discriminate|].
      destruct (avcodec_receive_frames codec1) as [[frames ret2] codec2].
      destruct ((ret2 =? AVERROR_EAGAIN) || (ret2 =? AVERROR_EOF)); [|discriminate].
      destruct (_ >=? m_bufferLength s) eqn:Eb.
      * inversion E; subst. apply Z.geb_le in Eb; lia.
      * destruct (IH _ _ E Hl) as [R | [pre R]]; [left; exact R|].
        right; exists (ReadPacket packet :: pre); rewrite R; reflexivity.
    + destruct (IH _ _ E Hl) as [R | [pre R]]; [left; exact R|].
      right; exists (ReadPacket packet :: pre); rewrite R; reflexivity.
  - destruct (ret =? AVERROR_EOF) eqn:Er; [|discriminate].
    apply Z.eqb_eq in Er; inversion E; subst.
    right; exists []; reflexivity.
Qed.

(** X3 — decodeNextBlock returns success with fewer than [m_bufferLength]
    new frames only at the end of the file: the demuxer has no packet left,
    or the read that stopped it returned AVERROR_EOF. *)
Theorem decodeNextBlock_short_only_at_eof (s : Stream)
    (Hok : fst (decodeNextBlock s) = true)
    (Hshort : Z.of_nat (length (m_bufferPong (snd (decodeNextBlock s)))) < m_bufferLength s) :
  m_packets (snd (decodeNextBlock s)) = []
  \/ exists pre, m_packets s = pre ++ ReadError AVERROR_EOF :: m_packets (snd (decodeNextBlock s)).
Proof.
  unfold decodeNextBlock in *.
  destruct (decode_loop s (m_packets s) (m_codec s) []) as [[[ok pong] pkts] codec] eqn:E.
  cbn in Hok, Hshort |- *; subst ok.
  exact (decode_loop_short _ _ _ _ _ _ _ E Hshort).
Qed.

Lemma decode_loop_frames (s : Stream) (pkts : list ReadResult) (codec : Codec)
    (pong : list Frame) :
  Forall (decoded_from s) pong ->
  Forall (decoded_from s) (snd (fst (fst (decode_loop s pkts codec pong)))).
Proof.
  revert codec pong; induction pkts as [|[packet | ret] pkts IH]; intros codec pong Hp;
    cbn [decode_loop].
  - exact Hp.
  - destruct (m_index s =? stream_index packet); [|apply IH; exact Hp].
    destruct (avcodec_send_packet codec packet) as [ret codec1].
    destruct (ret <? 0); [exact Hp|].
    destruct (avcodec_receive_frames codec1) as [[frames ret2] codec2].
    assert (Hp2 : Forall (decoded_from s) (pong ++ map (fun frame =>
              mkFrame (Some frame)
                (Stream_timeStampToTime s (best_effort_timestamp frame))
                (Stream_timeStampToFrame s (best_effort_timestamp frame))) frames)).
    { apply Forall_app; split; [exact Hp|].
      apply Forall_map, Forall_forall; intros af _.
      exists af; repeat split. }
    destruct (_ || _); [|exact Hp2].
    destruct (_ >=? _); [exact Hp2 | apply IH; exact Hp2].
  - destruct (ret =? AVERROR_EOF); exact Hp.
Qed.

(** ** Seeks: where a successful seek leaves the cursor *)

Lemma walk_time_found (fuel : nat) (t : Z) (s s1 : Stream) :
  walk_time fuel t s = Some (true, s1) ->
  exists f, peekNextFrame s1 = (inr f, s1) /\ time_reached t f s1 = true.
Proof.
  revert s; induction fuel as [|fuel IH]; intros s E; simpl in E; [discriminate|].
  destruct (peekNextFrame s) as [[b | f] s0] eqn:Ep; [discriminate|].
  pose proof (peekNextFrame_again _ _ _ Ep) as [Ep' _].
  destruct (t <=? getTimeStamp f) eqn:C1.
  - inversion E; subst. exists f; split; [exact Ep'|].
    unfold time_reached; rewrite C1; reflexivity.
  - destruct ((t >? getTimeStamp f) && (t <? getTimeStamp f + getFrameTime s0)) eqn:C2.
    + inversion E; subst. exists f; split; [exact Ep'|].
      unfold time_reached; rewrite C1, C2; reflexivity.
    + exact (IH _ E).
Qed.

Lemma walk_frame_found (fuel : nat) (n : Z) (s s1 : Stream) :
  walk_frame fuel n s = Some (true, s1) ->
  exists f, peekNextFrame s1 = (inr f, s1) /\ n <= getFrameNumber f.
Proof.
  revert s; induction fuel as [|fuel IH]; intros s E; simpl in E; [discriminate|].
  destruct (peekNextFrame s) as [[b | f] s0] eqn:Ep; [discriminate|].
  pose proof (peekNextFrame_again _ _ _ Ep) as [Ep' _].
  destruct (n <=? getFrameNumber f) eqn:C1.
  - inversion E; subst. exists f; split; [exact Ep'|]. apply Z.leb_le; exact C1.
  - exact (IH _ E).
Qed.

Lemma seekInternal_found (fuel : nat) (t : Z) (recursed : bool) (s s1 : Stream) :
  seekInternal fuel t recursed s = Some (true, s1) ->
  exists f, peekNextFrame s1 = (inr f, s1) /\ time_reached t f s1 = true.
Proof.
  revert recursed s; induction fuel as [|fuel IH]; intros recursed s E; simpl in E;
    [discriminate|].
  break_all E; try discriminate;
    try (eapply walk_time_found; exact E);
    eapply IH; exact E.
Qed.

Lemma seekFrameInternal_found (fuel : nat) (n : Z) (recursed : bool) (s s1 : Stream) :
  seekFrameInternal fuel n recursed s = Some (true, s1) ->
  exists f, peekNextFrame s1 = (inr f, s1)
    /\ (n <= getFrameNumber f \/ time_reached (Stream_frameToTime s n) f s1 = true).
Proof.
  revert recursed s; induction fuel as [|fuel IH]; intros recursed s E; simpl in E;
    [discriminate|].
  unfold seek in E.
  break_all E; try discriminate;
    try (apply walk_frame_found in E as [g [Eg Hg]];
         exists g; split; [exact Eg | left; exact Hg]);
    try (apply seekInternal_found in E as [g [Eg Hg]];
         exists g; split; [exact Eg | right; exact Hg]);
    try (apply IH in E as [g [Eg Hg]]; exists g; split; [exact Eg|];
         apply peekNextFrame_format in Ep;
         unfold Stream_frameToTime in *;
         rewrite Ep in Hg;
         exact Hg).
Qed.

(** X5 — After a time seek [seek(t)] that returns true, the next peek
    returns, without changing the state, a frame [f] with [t <= ts(f)], or
    with [ts(f) < t < ts(f) + getFrameTime()] (t falls inside [f]'s display
    interval). *)
Theorem seek_success_lands_on_time (fuel : nat) (t : Z) (s s1 : Stream)
    (E : seek fuel t s = Some (true, s1)) :
  exists f, peekNextFrame s1 = (inr f, s1)
    /\ (t <= getTimeStamp f
        \/ (getTimeStamp f < t /\ t < getTimeStamp f + getFrameTime s1)).
Proof.
  unfold seek in E.
  destruct (seekInternal_found _ _ _ _ _ E) as [f [Ef Hf]].
  exists f; split; [exact Ef|].
  unfold time_reached in Hf.
  destruct (t <=? getTimeStamp f) eqn:C1; [left; apply Z.leb_le; exact C1|].
  cbn [orb] in Hf; apply andb_prop in Hf as [A B].
  right; split; [apply Z.gtb_lt; exact A | apply Z.ltb_lt; exact B].
Qed.

(** X6 — After a frame seek [seekFrame(n)] that returns true, the next peek
    returns, without changing the state, a frame [f] with frame number at
    least [n], or (when the frame seek fell back to a time seek) a frame
    that the time seek to [frameToTime(n)] accepted: [frameToTime(n) <=
    ts(f)] or [frameToTime(n)] inside [f]'s display interval. *)
Theorem seekFrame_success_lands_on_frame (fuel : nat) (n : Z) (s s1 : Stream)
    (E : seekFrame fuel n s = Some (true, s1)) :
  exists f, peekNextFrame s1 = (inr f, s1)
    /\ (n <= getFrameNumber f
        \/ Stream_frameToTime s n <= getTimeStamp f
        \/ (getTimeStamp f < Stream_frameToTime s n
            /\ Stream_frameToTime s n < getTimeStamp f + getFrameTime s1)).
Proof.
  unfold seekFrame in E.
  destruct (seekFrameInternal_found _ _ _ _ _ E) as [f [Ef [Hf | Hf]]];
    exists f; split; try exact Ef; [left; exact Hf|right].
  unfold time_reached in Hf.
  destruct (Stream_frameToTime s n <=? getTimeStamp f) eqn:C1;
    [left; apply Z.leb_le; exact C1|].
  cbn [orb] in Hf; apply andb_prop in Hf as [A B].
  right; split; [apply Z.gtb_lt; exact A | apply Z.ltb_lt; exact B].
Qed.

End Extras.

(** * Monotonicity and round trips of the TimeMap conversions *)

Lemma av_rescale_near_inf_mono (a a' b c : Z) :
  0 < c -> 0 <= b -> a <= a' -> av_rescale_near_inf a b c <= av_rescale_near_inf a' b c.
Proof.
  intros Hc Hb Ha. unfold av_rescale_near_inf.
  assert (E : (c <=? 0) || (b <? 0) = false)
    by (apply orb_false_iff; split; [apply Z.leb_gt | apply Z.ltb_ge]; lia).
  rewrite E.
  pose proof (Z.div_pos c 2 ltac:(lia) ltac:(lia)) as Hc2.
  destruct (a <? 0) eqn:Ea, (a' <? 0) eqn:Ea';
    rewrite ?Z.ltb_lt, ?Z.ltb_ge in Ea, Ea'.
  - assert ((- a' * b + c / 2) / c <= (- a * b + c / 2) / c)
      by (apply Z.div_le_mono; nia).
    lia.
  - assert (0 <= (- a * b + c / 2) / c) by (apply Z.div_pos; nia).
    assert (0 <= (a' * b + c / 2) / c) by (apply Z.div_pos; nia).
    lia.
  - lia.
  - apply Z.div_le_mono; nia.
Qed.

Lemma av_rescale_near_inf_zero (b c : Z) :
  0 < c -> 0 <= b -> av_rescale_near_inf 0 b c = 0.
Proof.
  intros Hc Hb. unfold av_rescale_near_inf.
  assert (E : (c <=? 0) || (b <? 0) = false)
    by (apply orb_false_iff; split; [apply Z.leb_gt | apply Z.ltb_ge]; lia).
  rewrite E; cbn [Z.ltb Z.compare].
  apply Z.div_small.
  pose proof (Z.div_pos c 2 ltac:(lia) ltac:(lia)).
  pose proof (Z.div_lt c 2 ltac:(lia) ltac:(lia)).
  lia.
Qed.

Lemma av_rescale_q_mono (a a' : Z) (bq cq : AVRational) :
  0 < num cq * den bq -> 0 <= num bq * den cq -> a <= a' ->
  av_rescale_q a bq cq <= av_rescale_q a' bq cq.
Proof.
  intros Hc Hb Ha; unfold av_rescale_q; apply av_rescale_near_inf_mono; assumption.
Qed.

(** Rounding to nearest there and back, for every integer (the negative
    values by av_rescale_rnd's symmetry). *)
Lemma rescale_round_trip_all (n P Q : Z) :
  0 < Q -> Q <= P ->
  av_rescale_near_inf (av_rescale_near_inf n P Q) Q P = n.
Proof.
  intros HQ HQP.
  assert (E1 : (Q <=? 0) || (P <? 0) = false)
    by (apply orb_false_iff; split; [apply Z.leb_gt | apply Z.ltb_ge]; lia).
  assert (E2 : (P <=? 0) || (Q <? 0) = false)
    by (apply orb_false_iff; split; [apply Z.leb_gt | apply Z.ltb_ge]; lia).
  pose proof (Z.div_pos Q 2 ltac:(lia) ltac:(lia)) as HQ2.
  unfold av_rescale_near_inf; rewrite E1, E2.
  destruct (n <? 0) eqn:En.
  - apply Z.ltb_lt in En.
    assert (Hx : 1 <= (- n * P + Q / 2) / Q)
      by (apply Z.div_le_lower_bound; nia).
    assert (E3 : (- ((- n * P + Q / 2) / Q) <? 0) = true) by (apply Z.ltb_lt; lia).
    rewrite E3.
    replace (- - ((- n * P + Q / 2) / Q)) with ((- n * P + Q / 2) / Q) by ring.
    rewrite (rescale_round_trip_core (- n) P Q) by lia.
    ring.
  - apply Z.ltb_ge in En.
    assert (Hx : 0 <= (n * P + Q / 2) / Q) by (apply Z.div_pos; nia).
    assert (E3 : ((n * P + Q / 2) / Q <? 0) = false) by (apply Z.ltb_ge; lia).
    rewrite E3.
    apply rescale_round_trip_core; lia.
Qed.

(** The two conversions [decodeNextBlock] applies to a decoded frame's
    time stamp are monotone. *)
Lemma timeStamp_conversions_mono (fmt : AVFormatInfo) (start x y : Z)
    (Hfr : 0 < num (st_r_frame_rate fmt) /\ 0 < den (st_r_frame_rate fmt))
    (Htb : 0 < num (st_time_base fmt) /\ 0 < den (st_time_base fmt))
    (Hxy : x <= y) :
  timeStampToTime fmt start x <= timeStampToTime fmt start y
  /\ timeStampToFrame fmt start x <= timeStampToFrame fmt start y.
Proof.
  destruct Hfr as [Hfn Hfd], Htb as [Htn Htd].
  unfold timeStampToTime, timeStampToFrame, AV_TIME_BASE.
  split; apply av_rescale_q_mono; cbn [num den av_inv_q]; nia.
Qed.

(** X7 — With a time base and a frame rate of positive numerator and
    denominator, the six TimeMap conversions are monotone: [x <= y] gives
    [f x <= f y] for timeToTimeStamp, timeStampToTime, frameToTimeStamp,
    timeStampToFrame, frameToTime and timeToFrame. *)
Theorem timemap_monotone (fmt : AVFormatInfo) (start x y : Z)
    (Hfr : 0 < num (st_r_frame_rate fmt) /\ 0 < den (st_r_frame_rate fmt))
    (Htb : 0 < num (st_time_base fmt) /\ 0 < den (st_time_base fmt))
    (Hxy : x <= y) :
  timeToTimeStamp fmt start x <= timeToTimeStamp fmt start y
  /\ timeStampToTime fmt start x <= timeStampToTime fmt start y
  /\ frameToTimeStamp fmt start x <= frameToTimeStamp fmt start y
  /\ timeStampToFrame fmt start x <= timeStampToFrame fmt start y
  /\ frameToTime fmt x <= frameToTime fmt y
  /\ timeToFrame fmt x <= timeToFrame fmt y.
Proof.
  destruct Hfr as [Hfn Hfd], Htb as [Htn Htd].
  unfold timeToTimeStamp, timeStampToTime, frameToTimeStamp, timeStampToFrame,
    frameToTime, timeToFrame, AV_TIME_BASE.
  repeat split;
    try apply Z.add_le_mono_l;
    apply av_rescale_q_mono; cbn [num den av_inv_q]; nia.
Qed.

(** X8 — frameToTime then timeToFrame gives back the frame index, for every
    integer index, when the frame rate has a positive numerator and is at
    most 1000000 frames per second ([num <= 1000000 * den]). *)
Theorem frame_time_round_trip (fmt : AVFormatInfo) (n : Z)
    (Hfn : 0 < num (st_r_frame_rate fmt))
    (Hslow : num (st_r_frame_rate fmt) <= AV_TIME_BASE * den (st_r_frame_rate fmt)) :
  timeToFrame fmt (frameToTime fmt n) = n.
Proof.
  unfold timeToFrame, frameToTime, av_rescale_q, av_inv_q; cbn [num den].
  replace (1 * num (st_r_frame_rate fmt)) with (num (st_r_frame_rate fmt) * 1) by ring.
  replace (den (st_r_frame_rate fmt) * AV_TIME_BASE)
    with (AV_TIME_BASE * den (st_r_frame_rate fmt)) by ring.
  apply rescale_round_trip_all; lia.
Qed.

(** X9 — timeStampToTime then timeToTimeStamp gives back the time stamp,
    for every time stamp, when the time base has a positive denominator and
    one tick lasts at least one microsecond ([den <= 1000000 * num]). *)
Theorem timestamp_time_round_trip (fmt : AVFormatInfo) (start ts : Z)
    (Htd : 0 < den (st_time_base fmt))
    (Hcoarse : den (st_time_base fmt) <= num (st_time_base fmt) * AV_TIME_BASE) :
  timeToTimeStamp fmt start (timeStampToTime fmt start ts) = ts.
Proof.
  unfold timeToTimeStamp, timeStampToTime, av_rescale_q; cbn [num den].
  rewrite rescale_round_trip_all by lia.
  ring.
Qed.

(** * The probes, the end of the file and frame ownership *)

Section Extras2.
Context `{FFmpeg} `{FrameDefault}.

(** X10 — Frames decoded by decodeNextBlock are ordered consistently: when
    the time base and the frame rate have positive numerators and
    denominators, of two frames of the pong buffer the one with the smaller
    time stamp never has the larger frame number, and the one with the
    smaller frame number never has the larger time stamp. *)
Theorem decoded_frames_ordered (s : Stream)
    (Hfr : 0 < num (st_r_frame_rate (m_format s)) /\ 0 < den (st_r_frame_rate (m_format s)))
    (Htb : 0 < num (st_time_base (m_format s)) /\ 0 < den (st_time_base (m_format s))) :
  forall f1 f2, In f1 (m_bufferPong (snd (decodeNextBlock s))) ->
    In f2 (m_bufferPong (snd (decodeNextBlock s))) ->
    (getTimeStamp f1 < getTimeStamp f2 -> getFrameNumber f1 <= getFrameNumber f2)
    /\ (getFrameNumber f1 < getFrameNumber f2 -> getTimeStamp f1 <= getTimeStamp f2).
Proof.
  intros f1 f2 I1 I2.
  pose proof (decode_loop_frames s (m_packets s) (m_codec s) [] (Forall_nil _)) as K.
  assert (K' : Forall (decoded_from s) (m_bufferPong (snd (decodeNextBlock s)))).
  { unfold decodeNextBlock.
    destruct (decode_loop s (m_packets s) (m_codec s) []) as [[[ok pong] pkts] codec].
    exact K. }
  rewrite Forall_forall in K'.
  destruct (K' f1 I1) as [a1 [_ [T1 N1]]], (K' f2 I2) as [a2 [_ [T2 N2]]].
  unfold getTimeStamp, getFrameNumber; rewrite T1, N1, T2, N2.
  unfold Stream_timeStampToTime, Stream_timeStampToFrame.
  destruct (Z_le_gt_dec (best_effort_timestamp a1) (best_effort_timestamp a2)) as [Hle | Hgt].
  - destruct (timeStamp_conversions_mono (m_format s) (m_startTimeStamp s) _ _ Hfr Htb Hle)
      as [A B].
    split; intros _; assumption.
  - assert (Hge : best_effort_timestamp a2 <= best_effort_timestamp a1) by lia.
    destruct (timeStamp_conversions_mono (m_format s) (m_startTimeStamp s) _ _ Hfr Htb Hge)
      as [A B].
    split; intros; lia.
Qed.


(** ** The start-time probe *)

Lemma start_time_loop_min (index remaining : Z) (pkts : list ReadResult) (acc m : Z)
    (rest : list ReadResult) :
  start_time_loop index remaining pkts acc = inr (m, rest) ->
  exists pre, pkts = pre ++ rest
    /\ length (filter (is_stream_packet index) pre) = Z.to_nat remaining
    /\ (forall p, In (ReadPacket p) pre -> stream_index p = index ->
          packet_time_stamp p <> AV_NOPTS_VALUE ->
          m <> AV_NOPTS_VALUE /\ m <= packet_time_stamp p)
    /\ (acc <> AV_NOPTS_VALUE -> m <> AV_NOPTS_VALUE /\ m <= acc)
    /\ (m = acc \/ exists p, In (ReadPacket p) pre /\ stream_index p = index
                             /\ packet_time_stamp p = m).
Proof.
  revert remaining acc; induction pkts as [|[packet | err] pkts IH]; intros remaining acc E;
    cbn [start_time_loop] in E.
  - destruct (remaining <=? 0) eqn:Er; [|discriminate].
    apply Z.leb_le in Er; inversion E; subst.
    exists []; split; [reflexivity|]; split; [cbn; lia|];
      split; [intros ? []|]; split; [intros; split; [congruence | lia] | left; reflexivity].
  - destruct (remaining <=? 0) eqn:Er.
    + apply Z.leb_le in Er; inversion E; subst.
      exists []; split; [reflexivity|]; split; [cbn; lia|];
      split; [intros ? []|]; split; [intros; split; [congruence | lia] | left; reflexivity].
    + apply Z.leb_gt in Er.
      destruct (stream_index packet =? index) eqn:Ei.
      * apply Z.eqb_eq in Ei.
        fold (packet_time_stamp packet) in E.
        set (x := packet_time_stamp packet) in E.
        set (acc' := if negb (x =? AV_NOPTS_VALUE)
                        && ((x <? acc) || (acc =? AV_NOPTS_VALUE)) then x else acc) in E.
        destruct (IH _ _ E) as [pre [Hp [Hc [Hall [Hacc Hm]]]]].
        exists (ReadPacket packet :: pre); split; [rewrite Hp; reflexivity|].
        split.
        { cbn [filter is_stream_packet]. rewrite Ei, Z.eqb_refl; cbn [length].
          rewrite Hc; lia. }
        assert (Hacc' : acc' <> AV_NOPTS_VALUE -> m <> AV_NOPTS_VALUE /\ m <= acc')
          by exact Hacc.
        split; [|split].
        -- intros p [Hq | Hq] Hpi Hv.
           ++ inversion Hq; subst p. fold x in Hv |- *.
              unfold acc' in Hacc'.
              destruct (x =? AV_NOPTS_VALUE) eqn:Ex; [apply Z.eqb_eq in Ex; contradiction|].
              cbn [negb andb] in Hacc'.
              destruct (x <? acc) eqn:Ex1; cbn [orb] in Hacc'; [apply Hacc'; exact Hv|].
              destruct (acc =? AV_NOPTS_VALUE) eqn:Ea; [apply Hacc'; exact Hv|].
              apply Z.eqb_neq in Ea; apply Z.ltb_ge in Ex1.
              destruct (Hacc' Ea) as [A B]; split; [exact A | lia].
           ++ apply Hall; assumption.
        -- intros Ha.
           unfold acc' in Hacc'.
           destruct (negb (x =? AV_NOPTS_VALUE) && ((x <? acc) || (acc =? AV_NOPTS_VALUE)))
             eqn:Ec.
           ++ apply andb_prop in Ec as [Ec1 Ec2].
              apply negb_true_iff, Z.eqb_neq in Ec1.
              destruct (Hacc' Ec1) as [A B]; split; [exact A|].
              apply orb_prop in Ec2 as [Ec2 | Ec2];
                [apply Z.ltb_lt in Ec2; lia | apply Z.eqb_eq in Ec2; contradiction].
           ++ exact (Hacc' Ha).
        -- destruct Hm as [Hm | [p [Hq [Hpi Hpv]]]].
           ++ unfold acc' in Hm.
              destruct (negb _ && _); [right; exists packet; split; [left; reflexivity|]; auto
                                      | left; exact Hm].
           ++ right; exists p; split; [right; exact Hq | auto].
      * destruct (IH _ _ E) as [pre [Hp [Hc [Hall [Hacc Hm]]]]].
        exists (ReadPacket packet :: pre); split; [rewrite Hp; reflexivity|].
        split.
        { cbn [filter is_stream_packet]. rewrite Ei; exact Hc. }
        split; [|split; [exact Hacc|]].
        -- intros p [Hq | Hq] Hpi Hv.
           ++ inversion Hq; subst p. apply Z.eqb_neq in Ei; contradiction.
           ++ apply Hall; assumption.
        -- destruct Hm as [Hm | [p [Hq Hpv]]]; [left; exact Hm|].
           right; exists p; split; [right; exact Hq | exact Hpv].
  - destruct (remaining <=? 0) eqn:Er; [|discriminate].
    apply Z.leb_le in Er; inversion E; subst.
    exists []; split; [reflexivity|]; split; [cbn; lia|];
      split; [intros ? []|]; split; [intros; split; [congruence | lia] | left; reflexivity].
Qed.

(** X11 — The packet loop of getStreamStartTime, started from
    AV_NOPTS_VALUE: when it completes it has consumed exactly [maxPackets]
    packets of the stream (with any packets of other streams in between),
    and its result is the smallest time stamp (pts, else dts) among those
    packets, or AV_NOPTS_VALUE exactly when none of them carries one. *)
Theorem start_time_loop_minimum (index maxPackets : Z) (pkts : list ReadResult)
    (m : Z) (rest : list ReadResult)
    (E : start_time_loop index maxPackets pkts AV_NOPTS_VALUE = inr (m, rest)) :
  exists pre, pkts = pre ++ rest
    /\ length (filter (is_stream_packet index) pre) = Z.to_nat maxPackets
    /\ (forall p, In (ReadPacket p) pre -> stream_index p = index ->
          packet_time_stamp p <> AV_NOPTS_VALUE ->
          m <> AV_NOPTS_VALUE /\ m <= packet_time_stamp p)
    /\ (m <> AV_NOPTS_VALUE ->
          exists p, In (ReadPacket p) pre /\ stream_index p = index
                    /\ packet_time_stamp p = m).
Proof.
  destruct (start_time_loop_min _ _ _ _ _ _ E) as [pre [Hp [Hc [Hall [_ Hm]]]]].
  exists pre; split; [exact Hp|]; split; [exact Hc|]; split; [exact Hall|].
  intros Hv; destruct Hm as [Hm | Hm]; [contradiction | exact Hm].
Qed.

(** ** The read-to-end scan *)

Lemma scan_loop_ge (index : Z) (pkts : list ReadResult) (acc : Z) :
  acc <= scan_loop index pkts acc.
Proof.
  revert acc; induction pkts as [|[packet | err] pkts IH]; intros acc; cbn [scan_loop].
  - lia.
  - destruct (stream_index packet =? index); [|apply IH].
    match goal with |- context [scan_loop index pkts (if ?c then ?x else acc)] =>
      destruct c eqn:Ec; [apply Z.gtb_lt in Ec; specialize (IH x) | specialize (IH acc)]
    end; lia.
  - lia.
Qed.

(** X13 — When no length is declared (no positive container duration,
    frame count or stream duration) and the backward seek of the scan
    succeeds, getStreamFrames reports at least 1 frame and getStreamDuration
    at least the time of one frame (frameToTime(1)), for a time base and a
    frame rate of positive numerator and denominator. *)
Theorem scan_probes_lower_bound (s : Stream)
    (Hfr : 0 < num (st_r_frame_rate (m_format s)) /\ 0 < den (st_r_frame_rate (m_format s)))
    (Htb : 0 < num (st_time_base (m_format s)) /\ 0 < den (st_time_base (m_format s)))
    (Hd : fmt_duration (m_format s) <= 0)
    (Hnb : st_nb_frames (m_format s) <= 0)
    (Hsd : st_duration (m_format s) <= 0)
    (Hseek : 0 <= fst (av_seek_frame (m_index s) (Stream_frameToTimeStamp s (2 ^ 29))
                         AVSEEK_FLAG_BACKWARD)) :
  1 <= fst (getStreamFrames s) /\ Stream_frameToTime s 1 <= fst (getStreamDuration s).
Proof.
  assert (E1 : (fmt_duration (m_format s) >? 0) = false)
    by (rewrite Z.gtb_ltb; apply Z.ltb_ge; lia).
  assert (E2 : (st_nb_frames (m_format s) >? 0) = false)
    by (rewrite Z.gtb_ltb; apply Z.ltb_ge; lia).
  assert (E3 : (st_duration (m_format s) >? 0) = false)
    by (rewrite Z.gtb_ltb; apply Z.ltb_ge; lia).
  assert (Hz : forall found, m_startTimeStamp s <= found ->
             0 <= Stream_timeStampToFrame s found /\ 0 <= Stream_timeStampToTime s found).
  { intros found Hf.
    destruct (timeStamp_conversions_mono (m_format s) (m_startTimeStamp s) _ _ Hfr Htb Hf)
      as [A B].
    destruct Hfr as [Hfn Hfd], Htb as [Htn Htd].
    unfold timeStampToTime, timeStampToFrame, av_rescale_q, av_inv_q in A, B.
    unfold Stream_timeStampToFrame, Stream_timeStampToTime, timeStampToTime,
      timeStampToFrame, av_rescale_q, av_inv_q.
    cbn [num den] in *.
    rewrite Z.sub_diag, av_rescale_near_inf_zero in A, B by (unfold AV_TIME_BASE; nia).
    split; assumption. }
  unfold getStreamFrames, getStreamDuration, scan_last_timestamp.
  rewrite E1, E2, E3; cbn [andb].
  cbn [set_demux m_index m_startTimeStamp m_format].
  unfold Stream_frameToTimeStamp in *; cbn [set_demux m_format m_startTimeStamp] in *.
  destruct (av_seek_frame (m_index s) _ AVSEEK_FLAG_BACKWARD) as [err pkts] eqn:Es.
  cbn [fst] in Hseek.
  assert (Eerr : (err <? 0) = false) by (apply Z.ltb_ge; lia).
  rewrite Eerr.
  destruct (av_seek_frame (m_index s) 0 0) as [err2 pkts2].
  pose proof (scan_loop_ge (m_index s) pkts (m_startTimeStamp s)) as G.
  destruct (Hz _ G) as [A B].
  cbn [fst]; unfold Stream_timeStampToFrame, Stream_timeStampToTime, Stream_frameToTime in *;
    cbn [set_demux m_format m_startTimeStamp] in *.
  split; lia.
Qed.

(** ** The end of the file *)

(** X15 — At the end of the file (ping buffer exhausted, no packet left)
    peek_next and get_next return false, the decoder is left untouched (it
    is never drained of the frames it may still hold), and the state is
    again exhausted with no packet left, so every later call returns false
    as well. *)
Theorem end_of_file_is_final (s : Stream)
    (Hh : m_bufferPingHead s = length (m_bufferPing s))
    (Hp : m_packets s = []) :
  exists s', peekNextFrame s = (inl false, s')
    /\ getNextFrame s = (inl false, s')
    /\ m_codec s' = m_codec s
    /\ m_packets s' = []
    /\ m_bufferPingHead s' = length (m_bufferPing s').
Proof.
  assert (Ep : peekNextFrame s =
            (inl false, set_buffers (set_buffers (set_demux s [] (m_codec s))
                                       (m_bufferPing s) [] (m_bufferPingHead s)) [] [] 0)).
  { unfold peekNextFrame; rewrite Hh, Nat.eqb_refl.
    unfold decodeNextBlock; rewrite Hp; reflexivity. }
  eexists; split; [exact Ep|].
  split; [unfold getNextFrame; rewrite Ep; reflexivity|].
  repeat split.
Qed.

End Extras2.

(** * Concrete runs on the sample demuxer *)

Module SampleRuns.
Import Sample.
#[local] Existing Instance sample_default.

(** C4 (counterexample) — with the latch down, [seekFrame 30] is not
    [seek(frameToTime 30)]: frame 30 lies within [2 * 20] frames of the
    buffer, so the frame seek decodes forward and succeeds, while the time
    seek (30 frames > 25 frames ahead) goes to the demuxer, which rejects
    it. *)
Lemma latched_seekFrame_counterexample :
  m_frameSeekSupported latched_stream = false
  /\ option_map fst (seekFrame 100 30 latched_stream) = Some true
  /\ ~ (forall fuel, seekFrame (S fuel) 30 latched_stream =
                     seek fuel (Stream_frameToTime latched_stream 30) latched_stream).
Proof.
  split; [reflexivity|].
  split; [vm_compute; reflexivity|].
  intros Hall. specialize (Hall 99%nat).
  vm_compute in Hall. discriminate.
Qed.

(** C3 (counterexample) — with a 1/25 time base at 30 fps, frame 3 maps to
    time stamp 3 (2.5 rounded away from zero) and time stamp 3 maps back
    to frame 4 (3.6 rounded). *)
Lemma round_trip_coarse_counterexample :
  frameToTimeStamp fmt_coarse 0 3 = 3
  /\ timeStampToFrame fmt_coarse 0 3 = 4
  /\ ~ (forall fmt start n, 0 <= n ->
          timeStampToFrame fmt start (frameToTimeStamp fmt start n) = n).
Proof.
  split; [reflexivity|]. split; [reflexivity|].
  intros Hall. specialize (Hall fmt_coarse 0 3 ltac:(lia)).
  vm_compute in Hall. discriminate.
Qed.

(** C3 (witness) — the round trip at 29.97 fps in a 90 kHz time base. *)
Lemma frame_timestamp_round_trip_witness :
  (0 <= 1234
   /\ (0 < num (st_r_frame_rate fmt_ntsc) /\ 0 < den (st_r_frame_rate fmt_ntsc))
   /\ (0 < num (st_time_base fmt_ntsc) /\ 0 < den (st_time_base fmt_ntsc))
   /\ num (st_r_frame_rate fmt_ntsc) * num (st_time_base fmt_ntsc)
        <= den (st_r_frame_rate fmt_ntsc) * den (st_time_base fmt_ntsc))
  /\ timeStampToFrame fmt_ntsc 0 (frameToTimeStamp fmt_ntsc 0 1234) = 1234.
Proof.
  split.
  - cbn; lia.
  - apply (frame_timestamp_round_trip fmt_ntsc 0 1234); cbn; lia.
Defined.

(** C5 (counterexample) — 10 s at 30 fps gives 300 frames and the stream
    declares 301: within one frame, yet the probe returns the declared 301,
    not the duration-derived 300. *)
Lemma frames_within_one_counterexample :
  av_rescale_q (fmt_duration (fmt_declared 301)) (st_r_frame_rate (fmt_declared 301))
    (av_inv_q (av_make_q 1 AV_TIME_BASE)) = 300
  /\ Stream_timeStampToFrame (declared_stream 301) (m_startTimeStamp (declared_stream 301) * 2) = 0
  /\ fst (getStreamFrames (declared_stream 301)) = 301
  /\ fst (getStreamFrames (declared_stream 301)) <> 300 - 0.
Proof.
  split; [reflexivity|]. split; [reflexivity|]. split; [reflexivity|].
  vm_compute; discriminate.
Qed.

(** C5 (witness) — the same stream: the fall-through to [nb_frames]. *)
Lemma getStreamFrames_duration_branch_witness :
  fmt_duration (m_format (declared_stream 301)) > 0
  /\ fst (getStreamFrames (declared_stream 301)) = 301 - 0.
Proof.
  assert (Hd : fmt_duration (m_format (declared_stream 301)) > 0) by (cbn; lia).
  split; [exact Hd|].
  destruct (getStreamFrames_duration_branch (declared_stream 301) Hd) as [_ W].
  exact (W ltac:(vm_compute; discriminate) ltac:(cbn; lia)).
Defined.

(** C6 (code bug) — the scans take [dts], and [pts] only when [dts] is
    set: a last packet with pts 299 and no dts is ignored, so the probes
    report 1 frame and 33333 us, where the pts-else-dts rule gives 300
    frames and 10 s. *)
Lemma scan_ignores_pts_without_dts :
  fst (getStreamFrames undeclared_stream) = 1
  /\ 1 + Stream_timeStampToFrame undeclared_stream 299 = 300
  /\ fst (getStreamDuration undeclared_stream) = 33333
  /\ Stream_timeStampToTime undeclared_stream 299 + Stream_frameToTime undeclared_stream 1
       = 10000000.
Proof.
  repeat split; vm_compute; reflexivity.
Qed.

(** C9 (code bug) — Frame::getAspectRatio is width / height even when the
    stream declares a display aspect: 1.25 for the 720x576 frame, where
    Stream::getAspectRatio gives the declared 16/9. *)
Lemma frame_aspect_ignores_display_aspect :
  PrimFloat.eqb (Frame_getAspectRatio pal_frame) (of_uint63 5 / of_uint63 4)%float = true
  /\ PrimFloat.eqb (Stream_getAspectRatio fmt_pal_wide) (of_uint63 16 / of_uint63 9)%float = true
  /\ PrimFloat.eqb (Frame_getAspectRatio pal_frame) (Stream_getAspectRatio fmt_pal_wide) = false.
Proof.
  repeat split; vm_compute; reflexivity.
Qed.

(** X2 (witness) — frames 0 and 2 ahead of the head of a full buffer are
    handed out without decoding. *)
Lemma getNextFrameSequence_within_buffer_witness :
  ascending_from 0 [0; 2] = true
  /\ exists s', getNextFrameSequence [0; 2] ready_stream = (inr [frame30 0; frame30 2], s')
    /\ m_packets s' = m_packets ready_stream /\ m_codec s' = m_codec ready_stream
    /\ m_bufferPong s' = m_bufferPong ready_stream.
Proof.
  assert (Ha : ascending_from 0 [0; 2] = true) by reflexivity.
  split; [exact Ha|].
  apply (getNextFrameSequence_within_buffer [0; 2] ready_stream Ha).
  intros i [<- | [<- | []]]; cbn; lia.
Defined.

(** X3 (witness) — three packets for a buffer of four: the short block
    comes with every packet consumed. *)
Lemma decodeNextBlock_short_only_at_eof_witness :
  fst (decodeNextBlock short_stream) = true
  /\ Z.of_nat (length (m_bufferPong (snd (decodeNextBlock short_stream))))
       < m_bufferLength short_stream
  /\ (m_packets (snd (decodeNextBlock short_stream)) = []
      \/ exists pre, m_packets short_stream
                     = pre ++ ReadError AVERROR_EOF :: m_packets (snd (decodeNextBlock short_stream))).
Proof.
  assert (Hok : fst (decodeNextBlock short_stream) = true) by (vm_compute; reflexivity).
  assert (Hs : Z.of_nat (length (m_bufferPong (snd (decodeNextBlock short_stream))))
                 < m_bufferLength short_stream) by (vm_compute; reflexivity).
  split; [exact Hok|]; split; [exact Hs|].
  exact (decodeNextBlock_short_only_at_eof short_stream Hok Hs).
Defined.

(** X5 (witness) — seeking to the time of frame 2 in a full buffer. *)
Lemma seek_success_lands_on_time_witness :
  seek 10 66667 ready_stream = Some (true, outcome_state (seek 10 66667 ready_stream) ready_stream)
  /\ exists f, peekNextFrame (outcome_state (seek 10 66667 ready_stream) ready_stream)
                = (inr f, outcome_state (seek 10 66667 ready_stream) ready_stream)
    /\ (66667 <= getTimeStamp f
        \/ (getTimeStamp f < 66667 /\ 66667 < getTimeStamp f
              + getFrameTime (outcome_state (seek 10 66667 ready_stream) ready_stream))).
Proof.
  assert (E : seek 10 66667 ready_stream
              = Some (true, outcome_state (seek 10 66667 ready_stream) ready_stream))
    by (vm_compute; reflexivity).
  split; [exact E|].
  exact (seek_success_lands_on_time 10 66667 ready_stream _ E).
Defined.

(** X6 (witness) — seeking to frame 30 with the frame-seek latch down. *)
Lemma seekFrame_success_lands_on_frame_witness :
  seekFrame 100 30 latched_stream
    = Some (true, outcome_state (seekFrame 100 30 latched_stream) latched_stream)
  /\ exists f, peekNextFrame (outcome_state (seekFrame 100 30 latched_stream) latched_stream)
                = (inr f, outcome_state (seekFrame 100 30 latched_stream) latched_stream)
    /\ (30 <= getFrameNumber f
        \/ Stream_frameToTime latched_stream 30 <= getTimeStamp f
        \/ (getTimeStamp f < Stream_frameToTime latched_stream 30
            /\ Stream_frameToTime latched_stream 30 < getTimeStamp f
                 + getFrameTime (outcome_state (seekFrame 100 30 latched_stream) latched_stream))).
Proof.
  assert (E : seekFrame 100 30 latched_stream
              = Some (true, outcome_state (seekFrame 100 30 latched_stream) latched_stream))
    by (vm_compute; reflexivity).
  split; [exact E|].
  exact (seekFrame_success_lands_on_frame 100 30 latched_stream _ E).
Defined.

(** X7 (witness) — the conversions at 29.97 fps in a 90 kHz time base. *)
Lemma timemap_monotone_witness :
  ((0 < num (st_r_frame_rate fmt_ntsc) /\ 0 < den (st_r_frame_rate fmt_ntsc))
   /\ (0 < num (st_time_base fmt_ntsc) /\ 0 < den (st_time_base fmt_ntsc))
   /\ 100 <= 200)
  /\ timeToTimeStamp fmt_ntsc 7 100 <= timeToTimeStamp fmt_ntsc 7 200
  /\ timeStampToTime fmt_ntsc 7 100 <= timeStampToTime fmt_ntsc 7 200
  /\ frameToTimeStamp fmt_ntsc 7 100 <= frameToTimeStamp fmt_ntsc 7 200
  /\ timeStampToFrame fmt_ntsc 7 100 <= timeStampToFrame fmt_ntsc 7 200
  /\ frameToTime fmt_ntsc 100 <= frameToTime fmt_ntsc 200
  /\ timeToFrame fmt_ntsc 100 <= timeToFrame fmt_ntsc 200.
Proof.
  split; [cbn; lia|].
  apply (timemap_monotone fmt_ntsc 7 100 200); cbn; lia.
Defined.

(** X8 (witness) — frame -5 at 29.97 fps. *)
Lemma frame_time_round_trip_witness :
  (0 < num (st_r_frame_rate fmt_ntsc)
   /\ num (st_r_frame_rate fmt_ntsc) <= AV_TIME_BASE * den (st_r_frame_rate fmt_ntsc))
  /\ timeToFrame fmt_ntsc (frameToTime fmt_ntsc (-5)) = -5.
Proof.
  split; [cbn; lia|].
  apply (frame_time_round_trip fmt_ntsc (-5)); cbn; lia.
Defined.

(** X9 (witness) — time stamp 123457 in a 90 kHz time base, start 90. *)
Lemma timestamp_time_round_trip_witness :
  (0 < den (st_time_base fmt_ntsc)
   /\ den (st_time_base fmt_ntsc) <= num (st_time_base fmt_ntsc) * AV_TIME_BASE)
  /\ timeToTimeStamp fmt_ntsc 90 (timeStampToTime fmt_ntsc 90 123457) = 123457.
Proof.
  split; [cbn; lia|].
  apply (timestamp_time_round_trip fmt_ntsc 90 123457); cbn; lia.
Defined.

(** X10 (witness) — the block decoded from three packets at 30 fps. *)
Lemma decoded_frames_ordered_witness :
  ((0 < num (st_r_frame_rate (m_format short_stream))
    /\ 0 < den (st_r_frame_rate (m_format short_stream)))
   /\ (0 < num (st_time_base (m_format short_stream))
       /\ 0 < den (st_time_base (m_format short_stream))))
  /\ forall f1 f2, In f1 (m_bufferPong (snd (decodeNextBlock short_stream))) ->
    In f2 (m_bufferPong (snd (decodeNextBlock short_stream))) ->
    (getTimeStamp f1 < getTimeStamp f2 -> getFrameNumber f1 <= getFrameNumber f2)
    /\ (getFrameNumber f1 < getFrameNumber f2 -> getTimeStamp f1 <= getTimeStamp f2).
Proof.
  split; [cbn; lia|].
  apply (decoded_frames_ordered short_stream); cbn; lia.
Defined.

(** X11 (witness) — two packets of stream 0 are read (pts 5, then dts 3,
    with a packet of stream 1 between them): the start time stamp is 3. *)
Lemma start_time_loop_minimum_witness :
  start_time_loop 0 2 start_packets AV_NOPTS_VALUE = inr (3, [ReadPacket (mkPacket 0 9 9)])
  /\ exists pre, start_packets = pre ++ [ReadPacket (mkPacket 0 9 9)]
    /\ length (filter (is_stream_packet 0) pre) = Z.to_nat 2
    /\ (forall p, In (ReadPacket p) pre -> stream_index p = 0 ->
          packet_time_stamp p <> AV_NOPTS_VALUE ->
          3 <> AV_NOPTS_VALUE /\ 3 <= packet_time_stamp p)
    /\ (3 <> AV_NOPTS_VALUE ->
          exists p, In (ReadPacket p) pre /\ stream_index p = 0 /\ packet_time_stamp p = 3).
Proof.
  assert (E : start_time_loop 0 2 start_packets AV_NOPTS_VALUE
              = inr (3, [ReadPacket (mkPacket 0 9 9)])) by (vm_compute; reflexivity).
  split; [exact E|].
  exact (start_time_loop_minimum 0 2 start_packets 3 _ E).
Defined.

(** X13 (witness) — the undeclared 30 fps file. *)
Lemma scan_probes_lower_bound_witness :
  ((0 < num (st_r_frame_rate (m_format undeclared_stream))
    /\ 0 < den (st_r_frame_rate (m_format undeclared_stream)))
   /\ (0 < num (st_time_base (m_format undeclared_stream))
       /\ 0 < den (st_time_base (m_format undeclared_stream)))
   /\ fmt_duration (m_format undeclared_stream) <= 0
   /\ st_nb_frames (m_format undeclared_stream) <= 0
   /\ st_duration (m_format undeclared_stream) <= 0
   /\ 0 <= fst (@av_seek_frame (sample_ffmpeg undeclared_file) (m_index undeclared_stream)
                 (Stream_frameToTimeStamp undeclared_stream (2 ^ 29)) AVSEEK_FLAG_BACKWARD))
  /\ 1 <= fst (getStreamFrames undeclared_stream)
  /\ Stream_frameToTime undeclared_stream 1 <= fst (getStreamDuration undeclared_stream).
Proof.
  split; [repeat split; vm_compute; try reflexivity; discriminate|].
  apply (scan_probes_lower_bound undeclared_stream);
    repeat split; vm_compute; try reflexivity; discriminate.
Defined.

(** X15 (witness) — an exhausted cursor with no packet left. *)
Lemma end_of_file_is_final_witness :
  (m_bufferPingHead eof_stream = length (m_bufferPing eof_stream) /\ m_packets eof_stream = [])
  /\ exists s', peekNextFrame eof_stream = (inl false, s')
    /\ getNextFrame eof_stream = (inl false, s')
    /\ m_codec s' = m_codec eof_stream
    /\ m_packets s' = []
    /\ m_bufferPingHead s' = length (m_bufferPing s').
Proof.
  split; [split; reflexivity|].
  apply (end_of_file_is_final eof_stream); reflexivity.
Defined.

End SampleRuns.
